(** * CloudScanner: the scan orchestration loop of [scanner.py]

    A shallow embedding of [CloudScanner] (src/scanner.py) and the proofs of
    the orchestration properties of the specification.

    [scanner.py] drives three collaborators that live in other modules:
    [GitHubScanner] (repository listing, file listing, content fetch),
    [SecretDetector] (file filter, detection, deduplication, confidence
    filter) and [ReportGenerator].  They are interfaces here (records of
    operations); every call is written to a trace, so that "is not invoked"
    is a statement about the trace.  Calls that reach the network or run the
    pattern catalogue may raise; the file filter, the deduplication, the
    confidence filter and the report generator are total, as their contracts
    have them.  The state survives a raise, as it does in Python.  Progress
    output ([print]) is not modelled. *)

From Stdlib Require Import String List ZArith Bool Lia.
Import ListNotations.
Open Scope string_scope.
Open Scope list_scope.

(** ** Data model *)

(** A repository reference: the dict with keys ['full_name'], ['url'] and
    ['clone_url'] ([scan_single_repo] builds one by hand). *)
Record Repo := mkRepo {
  full_name : string;
  url : string;
  clone_url : string
}.

(** An entry of a file listing; the orchestrator reads ['path'] only. *)
Record FileInfo := mkFile {
  path : string;
  size : Z
}.

(** A finding.  The first five fields are written by the detector, the last
    three are the keys [_scan_repository] assigns; [None] is an absent key.
    [confidence] is a score on a discrete scale. *)
Record Finding := mkFinding {
  category : string;
  matched_text : string;
  file_path : string;
  line_number : Z;
  confidence : Z;
  repo_url : option string;
  repo_name : option string;
  scan_time : option string
}.

(** A reading of [datetime.now()]. *)
Definition datetime := Z.

(** Instances of Python's [Exception] class: what [except Exception]
    intercepts and what the collaborators raise on a failed call. *)
Inductive exn := Exception (msg : string).

Inductive Res (A : Type) :=
| Ok (a : A)
| Raise (e : exn).
Arguments Ok {A} a.
Arguments Raise {A} e.

(** ** Collaborators *)

Record GitHubScanner := {
  get_user_repos : string -> Res (list Repo);
  get_org_repos : string -> Res (list Repo);
  search_ai_repos : Z -> Res (list Repo);
  get_repo_files : string -> Res (list FileInfo);
  (* text, or [None] when the content is absent *)
  get_file_content : string -> string -> Res (option string)
}.

Record SecretDetector := {
  should_scan_file : string -> bool;
  detect_secrets_in_text : string -> string -> Res (list Finding);
  deduplicate_findings : list Finding -> list Finding;
  filter_high_confidence : list Finding -> list Finding
}.

Record ReportGenerator := {
  generate_report : list Finding -> datetime -> string -> string;
  generate_summary : string -> nat -> string
}.

Record CloudScanner := {
  github_scanner : GitHubScanner;
  secret_detector : SecretDetector;
  report_generator : ReportGenerator
}.

(** ** The world: clock and call trace *)

Inductive Call :=
| CallNow
| CallGetUserRepos (username : string)
| CallGetOrgRepos (org_name : string)
| CallSearchAiRepos (max_repos : Z)
| CallGetRepoFiles (repo_full_name : string)
| CallGetFileContent (repo_full_name file : string)
| CallShouldScanFile (file : string)
| CallDetect (content file : string)
| CallDeduplicate (findings : list Finding)
| CallFilter (findings : list Finding)
| CallGenerateReport (findings : list Finding) (start : datetime) (scan_type : string)
| CallGenerateSummary (report_path : string) (count : nat).

(** [ticks] counts the readings of the clock so far; [trace] holds the
    calls made so far, the latest first. *)
Record World := mkWorld {
  ticks : nat;
  trace : list Call
}.

Definition log (c : Call) (w : World) : World :=
  {| ticks := ticks w; trace := c :: trace w |}.

(** ** A state monad in which a raise keeps the state *)

Definition M (S A : Type) := S -> Res A * S.

Definition ret {S A} (a : A) : M S A := fun s => (Ok a, s).

Definition bind {S A B} (m : M S A) (k : A -> M S B) : M S B :=
  fun s =>
    match m s with
    | (Ok a, s') => k a s'
    | (Raise e, s') => (Raise e, s')
    end.

Definition try_except {S A} (body : M S A) (handler : exn -> M S A) : M S A :=
  fun s =>
    match body s with
    | (Ok a, s') => (Ok a, s')
    | (Raise e, s') => handler e s'
    end.

Declare Scope monad_scope.
Delimit Scope monad_scope with monad.
Notation "x <- m ;; k" := (bind m (fun x => k))
  (at level 61, m at next level, right associativity) : monad_scope.
Notation "m ;; k" := (bind m (fun _ => k))
  (at level 61, right associativity) : monad_scope.
Open Scope monad_scope.

(** [for x in l: body x] *)
Fixpoint for_each {S A} (l : list A) (body : A -> M S unit) : M S unit :=
  match l with
  | [] => ret tt
  | x :: rest => body x ;; for_each rest body
  end.

(** [for x in l: acc = body acc x], for a loop that updates one local. *)
Fixpoint for_fold {S A B} (l : list A) (acc : B) (body : B -> A -> M S B) : M S B :=
  match l with
  | [] => ret acc
  | x :: rest => acc' <- body acc x ;; for_fold rest acc' body
  end.

(** A local variable [L] that must outlive a raise sits next to the world. *)
Definition get_local {L} : M (L * World) L := fun s => (Ok (fst s), s).

Definition set_local {L} (v : L) : M (L * World) unit := fun s => (Ok tt, (v, snd s)).

Definition lift {L A} (m : M World A) : M (L * World) A :=
  fun s => let (r, w) := m (snd s) in (r, (fst s, w)).

Definition with_local {L A} (init : L) (m : M (L * World) A) : M World A :=
  fun w => let (r, s) := m (init, w) in (r, snd s).

(** A collaborator call: the answer, and the call on the trace. *)
Definition call {A} (c : Call) (answer : Res A) : M World A :=
  fun w => (answer, log c w).

(** Python's truth value of a fetched content: [None] and [''] are false. *)
Definition truthy (content : option string) : bool :=
  match content with
  | None => false
  | Some "" => false
  | Some _ => true
  end.

Definition text_of (content : option string) : string :=
  match content with
  | None => ""
  | Some s => s
  end.

Section Scanner.

(** [clock n] is what [datetime.now()] returns at its [n]-th reading;
    [strftime] renders a reading with ['%Y-%m-%d %H:%M:%S']. *)
Variable clock : nat -> datetime.
Variable strftime : datetime -> string.
Variable self : CloudScanner.

Definition now : M World datetime :=
  fun w => (Ok (clock (ticks w)),
            {| ticks := S (ticks w); trace := CallNow :: trace w |}).

(** The three assignments of the inner loop (lines 214-216). *)
Definition enrich (repo : Repo) (scan_time_str : string) (secret : Finding) : Finding :=
  {| category := category secret;
     matched_text := matched_text secret;
     file_path := file_path secret;
     line_number := line_number secret;
     confidence := confidence secret;
     repo_url := Some (url repo);
     repo_name := Some (full_name repo);
     scan_time := Some scan_time_str |}.

(** The body of [for file_info in files] (lines 194-217); the local is
    [findings]. *)
Definition scan_file (repo : Repo) (scan_time_str : string) (file_info : FileInfo)
  : M (list Finding * World) unit :=
  wanted <- lift (call (CallShouldScanFile (path file_info))
                       (Ok (should_scan_file (secret_detector self) (path file_info)))) ;;
  if negb wanted then ret tt
  else
    content <- lift (call (CallGetFileContent (full_name repo) (path file_info))
                          (get_file_content (github_scanner self)
                                            (full_name repo) (path file_info))) ;;
    if truthy content then
      secrets <- lift (call (CallDetect (text_of content) (path file_info))
                            (detect_secrets_in_text (secret_detector self)
                                                    (text_of content) (path file_info))) ;;
      for_each secrets (fun secret =>
        findings <- get_local ;;
        set_local (findings ++ [enrich repo scan_time_str secret]))
    else ret tt.

(** The [try] block of [_scan_repository] (lines 190-226). *)
Definition scan_repository_try (repo : Repo) (scan_time_str : string)
  : M (list Finding * World) unit :=
  files <- lift (call (CallGetRepoFiles (full_name repo))
                      (get_repo_files (github_scanner self) (full_name repo))) ;;
  for_each files (scan_file repo scan_time_str) ;;
  findings <- get_local ;;
  deduped <- lift (call (CallDeduplicate findings)
                        (Ok (deduplicate_findings (secret_detector self) findings))) ;;
  set_local deduped ;;
  findings <- get_local ;;
  kept <- lift (call (CallFilter findings)
                     (Ok (filter_high_confidence (secret_detector self) findings))) ;;
  set_local kept.

Definition _scan_repository (repo : Repo) : M World (list Finding) :=
  with_local []
    (t <- lift now ;;
     let scan_time_str := strftime t in
     try_except (scan_repository_try repo scan_time_str)
                (fun e => ret tt) ;;
     get_local).

(** The loop of lines 43-47, 81-85 and 119-123; the local is
    [all_findings]. *)
Definition scan_repos (repos : list Repo) : M World (list Finding) :=
  for_fold repos []
    (fun all_findings repo =>
       findings <- _scan_repository repo ;;
       ret (all_findings ++ findings)).

(** The report and its summary (lines 51-61, 89-99, 127-137, 164-174). *)
Definition report (all_findings : list Finding) (scan_start_time : datetime)
                  (scan_type : string) : M World string :=
  report_path <- call (CallGenerateReport all_findings scan_start_time scan_type)
                      (Ok (generate_report (report_generator self)
                                           all_findings scan_start_time scan_type)) ;;
  _ <- call (CallGenerateSummary report_path (length all_findings))
            (Ok (generate_summary (report_generator self)
                                  report_path (length all_findings))) ;;
  ret report_path.

Definition scan_user (username : string) : M World string :=
  scan_start_time <- now ;;
  repos <- call (CallGetUserRepos username)
                (get_user_repos (github_scanner self) username) ;;
  all_findings <- scan_repos repos ;;
  report all_findings scan_start_time ("user:" ++ username).

Definition scan_organization (org_name : string) : M World string :=
  scan_start_time <- now ;;
  repos <- call (CallGetOrgRepos org_name)
                (get_org_repos (github_scanner self) org_name) ;;
  all_findings <- scan_repos repos ;;
  report all_findings scan_start_time ("org:" ++ org_name).

Definition scan_ai_projects (max_repos : Z) : M World string :=
  scan_start_time <- now ;;
  repos <- call (CallSearchAiRepos max_repos)
                (search_ai_repos (github_scanner self) max_repos) ;;
  all_findings <- scan_repos repos ;;
  report all_findings scan_start_time "auto:ai-projects".

Definition scan_single_repo (repo_full_name : string) : M World string :=
  scan_start_time <- now ;;
  let repo_info := {| full_name := repo_full_name;
                      url := "https://github.com/" ++ repo_full_name;
                      clone_url := "https://github.com/" ++ repo_full_name ++ ".git" |} in
  findings <- _scan_repository repo_info ;;
  report findings scan_start_time ("single:" ++ repo_full_name).

End Scanner.

(** ** The three multi-repository entry points as one family *)

Inductive Target :=
| User (username : string)
| Organization (org_name : string)
| AiProjects (max_repos : Z).

(** [max_repos: int = 50] *)
Definition default_max_repos : Z := 50.

Definition scan_target (clock : nat -> datetime) (strftime : datetime -> string)
                       (self : CloudScanner) (t : Target) : M World string :=
  match t with
  | User username => scan_user clock strftime self username
  | Organization org_name => scan_organization clock strftime self org_name
  | AiProjects max_repos => scan_ai_projects clock strftime self max_repos
  end.

(** The repository-listing call of a target, its answer and its label. *)
Definition listing_call (t : Target) : Call :=
  match t with
  | User username => CallGetUserRepos username
  | Organization org_name => CallGetOrgRepos org_name
  | AiProjects max_repos => CallSearchAiRepos max_repos
  end.

Definition resolve (self : CloudScanner) (t : Target) : Res (list Repo) :=
  match t with
  | User username => get_user_repos (github_scanner self) username
  | Organization org_name => get_org_repos (github_scanner self) org_name
  | AiProjects max_repos => search_ai_repos (github_scanner self) max_repos
  end.

Definition scan_type_of (t : Target) : string :=
  match t with
  | User username => "user:" ++ username
  | Organization org_name => "org:" ++ org_name
  | AiProjects _ => "auto:ai-projects"
  end.

Definition is_repo_listing (c : Call) : bool :=
  match c with
  | CallGetUserRepos _ | CallGetOrgRepos _ | CallSearchAiRepos _ => true
  | _ => false
  end.

Definition is_report_call (c : Call) : bool :=
  match c with
  | CallGenerateReport _ _ _ | CallGenerateSummary _ _ => true
  | _ => false
  end.

(** ** What one pass does, read off the collaborators *)

(** The world after one reading of the clock, and after some more calls
    (latest first). *)
Definition tick (w : World) : World :=
  {| ticks := S (ticks w); trace := CallNow :: trace w |}.

Definition extend (calls : list Call) (w : World) : World :=
  {| ticks := ticks w; trace := calls ++ trace w |}.

Section Pass.

Variable self : CloudScanner.
Variable repo_full_name : string.

(** The detector's answer for one entry of the listing: [Ok []] when the
    file is skipped or has no content, [Raise] when fetch or detection do. *)
Definition file_answer (f : FileInfo) : Res (list Finding) :=
  if negb (should_scan_file (secret_detector self) (path f)) then Ok []
  else
    match get_file_content (github_scanner self) repo_full_name (path f) with
    | Raise e => Raise e
    | Ok content =>
        if truthy content
        then detect_secrets_in_text (secret_detector self) (text_of content) (path f)
        else Ok []
    end.

(** The calls made for one entry of the listing, latest first. *)
Definition file_calls (f : FileInfo) : list Call :=
  if negb (should_scan_file (secret_detector self) (path f))
  then [CallShouldScanFile (path f)]
  else
    match get_file_content (github_scanner self) repo_full_name (path f) with
    | Raise e => [CallGetFileContent repo_full_name (path f); CallShouldScanFile (path f)]
    | Ok content =>
        if truthy content
        then [CallDetect (text_of content) (path f);
              CallGetFileContent repo_full_name (path f);
              CallShouldScanFile (path f)]
        else [CallGetFileContent repo_full_name (path f); CallShouldScanFile (path f)]
    end.

Definition file_ok (f : FileInfo) : Prop :=
  exists secrets, file_answer f = Ok secrets.

(** The file loop: the detector output collected until the loop ends or
    raises, the exception in flight if any, and the calls made. *)
Fixpoint files_run (files : list FileInfo) : list Finding * option exn * list Call :=
  match files with
  | [] => ([], None, [])
  | f :: rest =>
      match file_answer f with
      | Raise e => ([], Some e, file_calls f)
      | Ok secrets =>
          let '(more, failure, calls) := files_run rest in
          (secrets ++ more, failure, calls ++ file_calls f)
      end
  end.

(** The exception met while processing the repository, if any. *)
Definition repo_failure : option exn :=
  match get_repo_files (github_scanner self) repo_full_name with
  | Raise e => Some e
  | Ok files => snd (fst (files_run files))
  end.

End Pass.

(** One pass of [_scan_repository] whose clock reading rendered as
    [scan_time_str]: the list it returns and the calls it makes after that
    reading, latest first. *)
Definition repo_pass (self : CloudScanner) (repo : Repo) (scan_time_str : string)
  : list Finding * list Call :=
  let d := secret_detector self in
  match get_repo_files (github_scanner self) (full_name repo) with
  | Raise e => ([], [CallGetRepoFiles (full_name repo)])
  | Ok files =>
      match files_run self (full_name repo) files with
      | (collected, Some e, calls) =>
          (map (enrich repo scan_time_str) collected,
           calls ++ [CallGetRepoFiles (full_name repo)])
      | (collected, None, calls) =>
          let raw := map (enrich repo scan_time_str) collected in
          (filter_high_confidence d (deduplicate_findings d raw),
           CallFilter (deduplicate_findings d raw) :: CallDeduplicate raw
             :: calls ++ [CallGetRepoFiles (full_name repo)])
      end
  end.

(** The calls of the file loop. *)
Definition is_file_call (c : Call) : bool :=
  match c with
  | CallShouldScanFile _ | CallGetFileContent _ _ | CallDetect _ _ => true
  | _ => false
  end.

(** The detector output of a listing in which nothing raises, enriched: the
    raw finding list of a repository. *)
Definition raw_findings (self : CloudScanner) (repo : Repo) (scan_time_str : string)
                        (files : list FileInfo) : list Finding :=
  flat_map (fun f => match file_answer self (full_name repo) f with
                     | Ok secrets => map (enrich repo scan_time_str) secrets
                     | Raise _ => []
                     end) files.

(** The per-repository finding lists of a pass over [repos], in order, each
    from the world its scan starts in. *)
Fixpoint contributions (clock : nat -> datetime) (strftime : datetime -> string)
                       (self : CloudScanner) (repos : list Repo) (w : World)
  : list (list Finding) :=
  match repos with
  | [] => []
  | repo :: rest =>
      match _scan_repository clock strftime self repo w with
      | (Ok findings, w') => findings :: contributions clock strftime self rest w'
      | (Raise _, w') => [] :: contributions clock strftime self rest w'
      end
  end.

(** The world after a pass over [repos]. *)
Fixpoint world_after (clock : nat -> datetime) (strftime : datetime -> string)
                     (self : CloudScanner) (repos : list Repo) (w : World) : World :=
  match repos with
  | [] => w
  | repo :: rest =>
      world_after clock strftime self rest
                  (snd (_scan_repository clock strftime self repo w))
  end.

(** The finding list of the latest [generate_report] call on a trace. *)
Fixpoint reported (calls : list Call) : option (list Finding) :=
  match calls with
  | [] => None
  | CallGenerateReport findings _ _ :: _ => Some findings
  | _ :: rest => reported rest
  end.

(** ** Deduplication and confidence filter of [SecretDetector] *)

Definition finding_key (f : Finding) : string * string * string :=
  (category f, matched_text f, file_path f).

Definition same_key (f g : Finding) : bool :=
  (category f =? category g)%string
  && (matched_text f =? matched_text g)%string
  && (file_path f =? file_path g)%string.

(** Modelled from the spec: secret_detector.py is not part of the sources;
    section 4.3 gives [deduplicate_findings].  Duplicates share category,
    matched text and file path; the survivor of a key is its entry of
    highest confidence, the first seen on a tie, at the place where the key
    was first seen. *)
Fixpoint keep_best (f : Finding) (kept : list Finding) : list Finding :=
  match kept with
  | [] => [f]
  | g :: rest =>
      if same_key f g
      then (if (confidence g <? confidence f)%Z then f else g) :: rest
      else g :: keep_best f rest
  end.

Definition deduplicate_findings_spec (findings : list Finding) : list Finding :=
  fold_left (fun kept f => keep_best f kept) findings [].

(** Modelled from the spec: secret_detector.py is not part of the sources;
    section 4.4 gives [filter_high_confidence]: it drops every finding whose
    confidence is strictly below the threshold. *)
Definition filter_high_confidence_spec (threshold : Z) (findings : list Finding)
  : list Finding :=
  filter (fun f => (threshold <=? confidence f)%Z) findings.

(** A detector whose deduplication and filter are those of the spec, with
    minimum confidence [threshold]. *)
Definition conforms (d : SecretDetector) (threshold : Z) : Prop :=
  (forall l, deduplicate_findings d l = deduplicate_findings_spec l)
  /\ (forall l, filter_high_confidence d l = filter_high_confidence_spec threshold l).

(** A function on finding lists that only selects: it invents no finding.
    Both operations of the spec are of this kind. *)
Definition selects (f : list Finding -> list Finding) : Prop :=
  forall l x, In x (f l) -> In x l.

(** The fields [_scan_repository] writes, as they must read on a finding of
    [repo] whose scan began at clock reading [t]. *)
Definition enriched (repo : Repo) (scan_time_str : string) (f : Finding) : Prop :=
  repo_url f = Some (url repo)
  /\ repo_name f = Some (full_name repo)
  /\ scan_time f = Some scan_time_str.

Definition above (threshold : Z) (f : Finding) : Prop :=
  (threshold <= confidence f)%Z.

(** A call that stays within one repository of [repos]: a deduplication of
    findings of that repository alone, or a filter of a deduplication of
    such findings.  Calls other than these two are not constrained. *)
Definition within_one_repository (self : CloudScanner) (repos : list Repo) (c : Call)
  : Prop :=
  match c with
  | CallDeduplicate l =>
      exists repo,
        In repo repos /\ Forall (fun f => repo_name f = Some (full_name repo)) l
  | CallFilter l =>
      exists repo raw,
        In repo repos
        /\ Forall (fun f => repo_name f = Some (full_name repo)) raw
        /\ l = deduplicate_findings (secret_detector self) raw
  | _ => True
  end.

(** ** A concrete scanner, for the examples *)

Module Demo.

Definition clock (n : nat) : datetime := (1700000000 + Z.of_nat n)%Z.

Definition strftime (t : datetime) : string :=
  if (t =? 1700000001)%Z then "2023-11-14 22:13:21"
  else if (t =? 1700000002)%Z then "2023-11-14 22:13:22"
  else if (t =? 1700000003)%Z then "2023-11-14 22:13:23"
  else "2023-11-14 22:13:20".

Definition threshold : Z := 50.

Definition one := mkRepo "alice/one" "https://github.com/alice/one"
                         "https://github.com/alice/one.git".
Definition two := mkRepo "alice/two" "https://github.com/alice/two"
                         "https://github.com/alice/two.git".
Definition three := mkRepo "alice/three" "https://github.com/alice/three"
                           "https://github.com/alice/three.git".
Definition leaky := mkRepo "bob/leaky" "https://github.com/bob/leaky"
                           "https://github.com/bob/leaky.git".
Definition app := mkRepo "acme/app" "https://github.com/acme/app"
                         "https://github.com/acme/app.git".

Definition rate_limit : exn := Exception "rate limit exceeded".
Definition timed_out : exn := Exception "read timed out".
Definition not_found : exn := Exception "404 Not Found".

Definition github : GitHubScanner := {|
  get_user_repos := fun username =>
    if username =? "alice" then Ok [one; two; three]
    else if username =? "bob" then Ok [leaky]
    else Raise not_found;
  get_org_repos := fun org_name =>
    if org_name =? "acme" then Ok [app; three] else Raise not_found;
  search_ai_repos := fun max_repos =>
    if (max_repos <=? 0)%Z then Ok [] else Ok [one];
  get_repo_files := fun name =>
    if name =? "alice/one"
    then Ok [mkFile "config.py" 120; mkFile "node_modules/x.js" 9000;
             mkFile "README" 0; mkFile "LICENSE" 1000]
    else if name =? "alice/two" then Raise rate_limit
    else if name =? "alice/three" then Ok [mkFile "config.py" 80; mkFile "notes.txt" 40]
    else if name =? "bob/leaky"
    then Ok [mkFile "a.env" 64; mkFile "b.env" 64; mkFile "c.env" 64]
    else if name =? "acme/app" then Ok [mkFile "config.py" 300]
    else Raise not_found;
  get_file_content := fun name file =>
    if file =? "config.py" then Ok (Some "aws")
    else if file =? "README" then Ok (Some "")
    else if file =? "LICENSE" then Ok None
    else if file =? "notes.txt" then Ok (Some "weak")
    else if file =? "a.env" then Ok (Some "mixed")
    else if file =? "b.env" then Raise timed_out
    else if file =? "c.env" then Ok (Some "aws")
    else Ok (Some "plain")
|}.

Definition aws (file : string) (line : Z) : Finding :=
  mkFinding "AWS Access Key" "AKIA************CDEF" file line 90 None None None.

Definition weak (file : string) (line : Z) : Finding :=
  mkFinding "Generic Secret" "pass****" file line 10 None None None.

Definition detector : SecretDetector := {|
  should_scan_file := fun file => negb (String.prefix "node_modules/" file);
  detect_secrets_in_text := fun content file =>
    if content =? "aws" then Ok [aws file 1; aws file 7]
    else if content =? "weak" then Ok [weak file 3]
    else if content =? "mixed" then Ok [weak file 2; aws file 4; aws file 9]
    else Ok [];
  deduplicate_findings := deduplicate_findings_spec;
  filter_high_confidence := filter_high_confidence_spec threshold
|}.

Definition reporter : ReportGenerator := {|
  generate_report := fun findings start scan_type => ("reports/" ++ scan_type ++ ".md")%string;
  generate_summary := fun report_path count => ("summary of " ++ report_path)%string
|}.

Definition scanner : CloudScanner := {|
  github_scanner := github;
  secret_detector := detector;
  report_generator := reporter
|}.

Definition w0 : World := {| ticks := 0; trace := [] |}.

End Demo.


(** ** Three sentences of the specification that the code does not follow

    Each is written down as it reads, to be tested on [Demo.scanner]. *)

Section AsStated.

Variable clock : nat -> datetime.
Variable strftime : datetime -> string.
Variable self : CloudScanner.

(** "If processing one repository raises an exception, that repository
    contributes zero findings". *)
Definition failed_repo_contributes_nothing : Prop :=
  forall t repos w,
    resolve self t = Ok repos ->
    Forall2 (fun repo findings =>
               repo_failure self (full_name repo) <> None -> findings = [])
            repos
            (contributions clock strftime self repos (log (listing_call t) (tick w))).

(** "An exception raised while fetching or detecting file k does not prevent
    files after k from being scanned". *)
Definition per_file_isolation : Prop :=
  forall repo pre fk post e w,
    get_repo_files (github_scanner self) (full_name repo) = Ok (pre ++ fk :: post) ->
    Forall (file_ok self (full_name repo)) pre ->
    file_answer self (full_name repo) fk = Raise e ->
    forall f, In f post ->
      In (CallShouldScanFile (path f))
         (trace (snd (_scan_repository clock strftime self repo w))).

(** "Every finding has confidence at least the threshold and no two findings
    share (category, matched text, file path)": for every list returned by
    [_scan_repository], and for every list handed to the report generator. *)
Definition findings_invariant (threshold : Z) (findings : list Finding) : Prop :=
  Forall (above threshold) findings /\ NoDup (map finding_key findings).

Definition repository_result_invariant (threshold : Z) : Prop :=
  forall repo w findings w',
    _scan_repository clock strftime self repo w = (Ok findings, w') ->
    findings_invariant threshold findings.

Definition scan_result_invariant (threshold : Z) : Prop :=
  forall t w report_path w' findings,
    scan_target clock strftime self t w = (Ok report_path, w') ->
    reported (trace w') = Some findings ->
    findings_invariant threshold findings.

End AsStated.

(** A repository whose file loop does not raise: its file listing raises,
    or no file of the listing raises in fetch or detection. *)
Definition no_file_failure (self : CloudScanner) (repo_full_name : string) : Prop :=
  match get_repo_files (github_scanner self) repo_full_name with
  | Raise _ => True
  | Ok files => Forall (file_ok self repo_full_name) files
  end.

(** ** Counting the calls of a scan *)

Definition is_check_call (c : Call) : bool :=
  match c with CallShouldScanFile _ => true | _ => false end.

Definition is_fetch_call (c : Call) : bool :=
  match c with CallGetFileContent _ _ => true | _ => false end.

Definition is_detect_call (c : Call) : bool :=
  match c with CallDetect _ _ => true | _ => false end.

Definition is_file_listing (c : Call) : bool :=
  match c with CallGetRepoFiles _ => true | _ => false end.

Definition is_selection_call (c : Call) : bool :=
  match c with CallDeduplicate _ | CallFilter _ => true | _ => false end.

Definition count_calls (p : Call -> bool) (calls : list Call) : nat :=
  length (filter p calls).

(** The files of a listing that pass the file filter. *)
Definition wanted_files (self : CloudScanner) (files : list FileInfo) : list FileInfo :=
  filter (fun f => should_scan_file (secret_detector self) (path f)) files.

(** A file that gives the detector nothing to read: the filter rejects it,
    or its fetched content is [None] or empty. *)
Definition contentless (self : CloudScanner) (repo_full_name : string) (f : FileInfo)
  : Prop :=
  should_scan_file (secret_detector self) (path f) = false
  \/ exists content,
       get_file_content (github_scanner self) repo_full_name (path f) = Ok content
       /\ truthy content = false.

(** ** A scanner without network, for the examples *)

Module Offline.

Definition refused : exn := Exception "connection refused".

Definition github : GitHubScanner := {|
  get_user_repos := fun _ => Raise refused;
  get_org_repos := fun _ => Raise refused;
  search_ai_repos := fun _ => Raise refused;
  get_repo_files := fun _ => Raise refused;
  get_file_content := fun _ _ => Raise refused
|}.

Definition scanner : CloudScanner := {|
  github_scanner := github;
  secret_detector := Demo.detector;
  report_generator := Demo.reporter
|}.

End Offline.

(** ** A scanner over a repository with nothing to read *)

Module Quiet.

Definition docs := mkRepo "carol/docs" "https://github.com/carol/docs"
                          "https://github.com/carol/docs.git".

Definition listing : list FileInfo :=
  [mkFile "node_modules/x.js" 9000; mkFile "README" 0; mkFile "LICENSE" 1000].

Definition github : GitHubScanner := {|
  get_user_repos := fun _ => Ok [docs];
  get_org_repos := fun _ => Ok [docs];
  search_ai_repos := fun _ => Ok [docs];
  get_repo_files := fun _ => Ok listing;
  get_file_content := get_file_content Demo.github
|}.

Definition scanner : CloudScanner := {|
  github_scanner := github;
  secret_detector := Demo.detector;
  report_generator := Demo.reporter
|}.

End Quiet.

(** * Proofs *)

(** ** The monadic code and its reading *)

Lemma extend_app (a b : list Call) (w : World) :
  extend a (extend b w) = extend (a ++ b) w.
Proof.
  unfold extend; simpl. now rewrite app_assoc.
Qed.

Lemma extend_nil (w : World) : extend [] w = w.
Proof. now destruct w. Qed.

Lemma log_extend (c : Call) (calls : list Call) (w : World) :
  log c (extend calls w) = extend (c :: calls) w.
Proof. reflexivity. Qed.

Lemma bind_run {S A B} (m : M S A) (k : A -> M S B) (s : S) :
  bind m k s = match m s with
               | (Ok a, s') => k a s'
               | (Raise e, s') => (Raise e, s')
               end.
Proof. reflexivity. Qed.

(** The inner loop appends the enriched secrets, in order. *)
Lemma append_secrets (repo : Repo) (st : string) (secrets acc : list Finding) (w : World) :
  for_each secrets
    (fun secret => findings <- get_local ;;
                   set_local (findings ++ [enrich repo st secret])) (acc, w)
  = (Ok tt, (acc ++ map (enrich repo st) secrets, w)).
Proof.
  revert acc. induction secrets as [|s rest IH]; intros acc; simpl.
  - unfold ret. now rewrite app_nil_r.
  - rewrite bind_run, bind_run. cbn [get_local set_local fst snd].
    rewrite IH. now rewrite <- app_assoc.
Qed.

Section Readings.

Variable clock : nat -> datetime.
Variable strftime : datetime -> string.
Variable self : CloudScanner.

(** One iteration of the file loop. *)
Lemma scan_file_run (repo : Repo) (st : string) (f : FileInfo)
      (acc : list Finding) (w : World) :
  scan_file self repo st f (acc, w)
  = match file_answer self (full_name repo) f with
    | Ok secrets =>
        (Ok tt, (acc ++ map (enrich repo st) secrets,
                 extend (file_calls self (full_name repo) f) w))
    | Raise e => (Raise e, (acc, extend (file_calls self (full_name repo) f) w))
    end.
Proof.
  unfold scan_file, file_answer, file_calls.
  rewrite bind_run. cbn [lift call fst snd].
  destruct (should_scan_file (secret_detector self) (path f)); cbn [negb].
  - rewrite bind_run. cbn [lift call fst snd].
    destruct (get_file_content (github_scanner self) (full_name repo) (path f))
      as [content|e]; [|reflexivity].
    destruct (truthy content).
    + rewrite bind_run. cbn [lift call fst snd].
      destruct (detect_secrets_in_text (secret_detector self) (text_of content) (path f))
        as [secrets|e]; [|reflexivity].
      now rewrite append_secrets.
    + unfold ret. cbn [map]. now rewrite app_nil_r.
  - unfold ret. cbn [map]. now rewrite app_nil_r.
Qed.

(** The file loop. *)
Lemma scan_files_run (repo : Repo) (st : string) (files : list FileInfo)
      (acc : list Finding) (w : World) :
  for_each files (scan_file self repo st) (acc, w)
  = match files_run self (full_name repo) files with
    | (collected, failure, calls) =>
        (match failure with None => Ok tt | Some e => Raise e end,
         (acc ++ map (enrich repo st) collected, extend calls w))
    end.
Proof.
  revert acc w. induction files as [|f rest IH]; intros acc w; simpl.
  - unfold ret. now rewrite app_nil_r, extend_nil.
  - rewrite bind_run, scan_file_run.
    destruct (file_answer self (full_name repo) f) as [secrets|e].
    + rewrite IH.
      destruct (files_run self (full_name repo) rest) as [[more failure] calls].
      now rewrite extend_app, map_app, app_assoc.
    + simpl. now rewrite app_nil_r.
Qed.

(** [_scan_repository] returns, never raises, and is [repo_pass]. *)
Lemma scan_repository_run (repo : Repo) (w : World) :
  _scan_repository clock strftime self repo w
  = (Ok (fst (repo_pass self repo (strftime (clock (ticks w))))),
     extend (snd (repo_pass self repo (strftime (clock (ticks w))))) (tick w)).
Proof.
  unfold _scan_repository, with_local, repo_pass, scan_repository_try.
  rewrite bind_run. cbn [lift now fst snd].
  rewrite bind_run. unfold try_except.
  rewrite bind_run. cbn [lift call fst snd].
  destruct (get_repo_files (github_scanner self) (full_name repo)) as [files|e].
  - rewrite bind_run, scan_files_run.
    destruct (files_run self (full_name repo) files) as [[collected failure] calls].
    destruct failure as [e|]; cbn.
    + unfold extend, log, tick; cbn. now rewrite <- app_assoc.
    + unfold extend, log, tick; cbn. now rewrite <- app_assoc.
  - reflexivity.
Qed.

(** The [try] block raises exactly when [repo_failure] names an exception. *)
Lemma try_block_outcome (repo : Repo) (st : string) (acc : list Finding) (w : World) :
  fst (scan_repository_try self repo st (acc, w))
  = match repo_failure self (full_name repo) with
    | Some e => Raise e
    | None => Ok tt
    end.
Proof.
  unfold scan_repository_try, repo_failure.
  rewrite bind_run. cbn [lift call fst snd].
  destruct (get_repo_files (github_scanner self) (full_name repo)) as [files|e];
    [|reflexivity].
  rewrite bind_run, scan_files_run.
  destruct (files_run self (full_name repo) files) as [[collected failure] calls].
  destruct failure as [e|]; reflexivity.
Qed.

End Readings.

(** ** Deduplication and filter of the spec *)

Lemma same_key_true (f g : Finding) :
  same_key f g = true <-> finding_key f = finding_key g.
Proof.
  unfold same_key, finding_key. rewrite !andb_true_iff, !String.eqb_eq.
  split.
  - intros [[-> ->] ->]. reflexivity.
  - intros H. inversion H. auto.
Qed.

Lemma keep_best_In (f x : Finding) (kept : list Finding) :
  In x (keep_best f kept) -> x = f \/ In x kept.
Proof.
  induction kept as [|g rest IH]; simpl.
  - intros [->|[]]. now left.
  - destruct (same_key f g).
    + destruct (confidence g <? confidence f)%Z; simpl; intuition.
    + simpl. intuition.
Qed.

Lemma keep_best_keys (f : Finding) (kept : list Finding) (k : string * string * string) :
  In k (map finding_key (keep_best f kept)) ->
  k = finding_key f \/ In k (map finding_key kept).
Proof.
  induction kept as [|g rest IH]; simpl.
  - intros [<-|[]]. now left.
  - destruct (same_key f g) eqn:E.
    + apply same_key_true in E.
      destruct (confidence g <? confidence f)%Z; simpl; intuition.
    + simpl. intuition.
Qed.

Lemma keep_best_NoDup (f : Finding) (kept : list Finding) :
  NoDup (map finding_key kept) -> NoDup (map finding_key (keep_best f kept)).
Proof.
  induction kept as [|g rest IH]; simpl; intros H.
  - constructor; [intros []|constructor].
  - inversion H as [|k ks Hk Hrest]; subst.
    destruct (same_key f g) eqn:E.
    + apply same_key_true in E.
      destruct (confidence g <? confidence f)%Z; simpl.
      * constructor; [now rewrite E|assumption].
      * assumption.
    + simpl. constructor; [|now apply IH].
      intros Hin. apply keep_best_keys in Hin as [Heq|Hin]; [|contradiction].
      assert (same_key f g = true) by now apply same_key_true.
      congruence.
Qed.

Lemma fold_keep_best_NoDup (findings kept : list Finding) :
  NoDup (map finding_key kept) ->
  NoDup (map finding_key (fold_left (fun kept f => keep_best f kept) findings kept)).
Proof.
  revert kept. induction findings as [|f rest IH]; intros kept H; simpl.
  - assumption.
  - apply IH. now apply keep_best_NoDup.
Qed.

Lemma fold_keep_best_In (findings kept : list Finding) (x : Finding) :
  In x (fold_left (fun kept f => keep_best f kept) findings kept) ->
  In x findings \/ In x kept.
Proof.
  revert kept. induction findings as [|f rest IH]; intros kept H; simpl in *.
  - now right.
  - apply IH in H as [H|H]; [now left; right|].
    apply keep_best_In in H as [->|H]; [now left; left|now right].
Qed.

Lemma deduplicate_spec_NoDup (findings : list Finding) :
  NoDup (map finding_key (deduplicate_findings_spec findings)).
Proof.
  apply fold_keep_best_NoDup. constructor.
Qed.

Lemma deduplicate_spec_selects : selects deduplicate_findings_spec.
Proof.
  intros l x H. apply fold_keep_best_In in H as [H|[]]. assumption.
Qed.

Lemma filter_spec_selects (threshold : Z) :
  selects (filter_high_confidence_spec threshold).
Proof.
  intros l x H. apply filter_In in H. tauto.
Qed.

Lemma filter_spec_above (threshold : Z) (findings : list Finding) :
  Forall (above threshold) (filter_high_confidence_spec threshold findings).
Proof.
  apply Forall_forall. intros x H. apply filter_In in H as [_ H].
  unfold above. lia.
Qed.

Lemma filter_keeps_NoDup {A B} (key : A -> B) (p : A -> bool) (l : list A) :
  NoDup (map key l) -> NoDup (map key (filter p l)).
Proof.
  induction l as [|a rest IH]; simpl; intros H; [assumption|].
  inversion H as [|k ks Hk Hrest]; subst.
  destruct (p a); simpl; [|now apply IH].
  constructor; [|now apply IH].
  intros Hin. apply Hk. apply in_map_iff in Hin as (x & Hx & Hin).
  apply filter_In in Hin as [Hin _]. apply in_map_iff. eauto.
Qed.

(** ** The loop over repositories *)

Section Targets.

Variable clock : nat -> datetime.
Variable strftime : datetime -> string.
Variable self : CloudScanner.

Lemma contributions_cons (repo : Repo) (rest : list Repo) (w : World) :
  contributions clock strftime self (repo :: rest) w
  = fst (repo_pass self repo (strftime (clock (ticks w))))
    :: contributions clock strftime self rest
         (extend (snd (repo_pass self repo (strftime (clock (ticks w))))) (tick w)).
Proof.
  simpl. now rewrite scan_repository_run.
Qed.

Lemma world_after_cons (repo : Repo) (rest : list Repo) (w : World) :
  world_after clock strftime self (repo :: rest) w
  = world_after clock strftime self rest
      (extend (snd (repo_pass self repo (strftime (clock (ticks w))))) (tick w)).
Proof.
  simpl. now rewrite scan_repository_run.
Qed.

Lemma for_fold_repos (repos : list Repo) (acc : list Finding) (w : World) :
  for_fold repos acc
    (fun all_findings repo =>
       findings <- _scan_repository clock strftime self repo ;;
       ret (all_findings ++ findings)) w
  = (Ok (acc ++ concat (contributions clock strftime self repos w)),
     world_after clock strftime self repos w).
Proof.
  revert acc w. induction repos as [|repo rest IH]; intros acc w.
  - simpl. unfold ret. now rewrite app_nil_r.
  - rewrite contributions_cons, world_after_cons.
    cbn [for_fold]. rewrite bind_run, bind_run, scan_repository_run.
    unfold ret at 1. rewrite IH. cbn [concat]. now rewrite app_assoc.
Qed.

Lemma scan_repos_run (repos : list Repo) (w : World) :
  scan_repos clock strftime self repos w
  = (Ok (concat (contributions clock strftime self repos w)),
     world_after clock strftime self repos w).
Proof.
  unfold scan_repos. now rewrite for_fold_repos.
Qed.

Lemma report_run (findings : list Finding) (start : datetime) (label : string) (w : World) :
  report self findings start label w
  = (Ok (generate_report (report_generator self) findings start label),
     log (CallGenerateSummary
            (generate_report (report_generator self) findings start label)
            (length findings))
         (log (CallGenerateReport findings start label) w)).
Proof. reflexivity. Qed.

Lemma scan_target_ok (t : Target) (repos : list Repo) (w : World) :
  resolve self t = Ok repos ->
  let w1 := log (listing_call t) (tick w) in
  let all := concat (contributions clock strftime self repos w1) in
  let start := clock (ticks w) in
  scan_target clock strftime self t w
  = (Ok (generate_report (report_generator self) all start (scan_type_of t)),
     log (CallGenerateSummary
            (generate_report (report_generator self) all start (scan_type_of t))
            (length all))
         (log (CallGenerateReport all start (scan_type_of t))
              (world_after clock strftime self repos w1))).
Proof.
  intros H. destruct t; cbn [scan_target resolve listing_call scan_type_of] in *;
    [unfold scan_user|unfold scan_organization|unfold scan_ai_projects];
    rewrite bind_run; cbn [now]; rewrite bind_run; unfold call at 1; rewrite H;
    rewrite bind_run, scan_repos_run, report_run; reflexivity.
Qed.

Lemma scan_target_raise (t : Target) (e : exn) (w : World) :
  resolve self t = Raise e ->
  scan_target clock strftime self t w = (Raise e, log (listing_call t) (tick w)).
Proof.
  intros H. destruct t; cbn [scan_target resolve listing_call] in *;
    [unfold scan_user|unfold scan_organization|unfold scan_ai_projects];
    rewrite bind_run; cbn [now]; rewrite bind_run; unfold call at 1; rewrite H;
    reflexivity.
Qed.

Lemma listed_in_pass (repo : Repo) (st : string) :
  In (CallGetRepoFiles (full_name repo)) (snd (repo_pass self repo st)).
Proof.
  unfold repo_pass.
  destruct (get_repo_files (github_scanner self) (full_name repo)) as [files|e];
    [|now left].
  destruct (files_run self (full_name repo) files) as [[collected [e|]] calls]; cbn.
  - apply in_or_app. right. now left.
  - right. right. apply in_or_app. right. now left.
Qed.

End Targets.

(** ** The file loop, read off the collaborators *)

Section Files.

Variable self : CloudScanner.
Variable name : string.

Lemma truthy_text (content : option string) :
  truthy content = true -> content = Some (text_of content) /\ text_of content <> "".
Proof.
  destruct content as [[|a s]|]; simpl; intros H; try discriminate.
  split; [reflexivity|discriminate].
Qed.

Lemma falsy_content (content : option string) :
  content = None \/ content = Some "" -> truthy content = false.
Proof. intros [->| ->]; reflexivity. Qed.

Lemma files_run_clean (files : list FileInfo) :
  Forall (file_ok self name) files ->
  snd (fst (files_run self name files)) = None.
Proof.
  induction 1 as [|f rest [secrets Hf] _ IH]; simpl; [reflexivity|].
  rewrite Hf. destruct (files_run self name rest) as [[more failure] calls].
  assumption.
Qed.

Lemma files_run_clean_inv (files : list FileInfo) :
  snd (fst (files_run self name files)) = None ->
  Forall (file_ok self name) files.
Proof.
  induction files as [|f rest IH]; simpl; intros H; [constructor|].
  destruct (file_answer self name f) as [secrets|e] eqn:Hf; [|discriminate].
  destruct (files_run self name rest) as [[more failure] calls].
  constructor; [now exists secrets|now apply IH].
Qed.

Lemma files_run_collected (repo : Repo) (st : string) (files : list FileInfo) :
  full_name repo = name ->
  Forall (file_ok self name) files ->
  map (enrich repo st) (fst (fst (files_run self name files)))
  = raw_findings self repo st files.
Proof.
  intros Hn. unfold raw_findings. rewrite Hn.
  induction 1 as [|f rest [secrets Hf] _ IH]; simpl; [reflexivity|].
  rewrite Hf. destruct (files_run self name rest) as [[more failure] calls].
  simpl in *. now rewrite map_app, IH.
Qed.

(** A raise at one entry ends the loop: what comes after is not read. *)
Lemma files_run_stops (pre post : list FileInfo) (fk : FileInfo) (e : exn) :
  Forall (file_ok self name) pre ->
  file_answer self name fk = Raise e ->
  files_run self name (pre ++ fk :: post)
  = (fst (fst (files_run self name pre)), Some e,
     file_calls self name fk ++ snd (files_run self name pre)).
Proof.
  intros Hpre Hk.
  induction Hpre as [|f rest [secrets Hf] _ IH]; simpl.
  - now rewrite Hk, app_nil_r.
  - rewrite Hf, IH.
    destruct (files_run self name rest) as [[more failure] calls]; simpl.
    now rewrite app_assoc.
Qed.

Lemma file_calls_kind (f : FileInfo) :
  Forall (fun c => is_file_call c = true) (file_calls self name f).
Proof.
  unfold file_calls.
  destruct (should_scan_file (secret_detector self) (path f)); simpl;
    [|repeat constructor].
  destruct (get_file_content (github_scanner self) name (path f)) as [content|e];
    [|repeat constructor].
  destruct (truthy content); repeat constructor.
Qed.

Lemma files_run_calls (files : list FileInfo) (c : Call) :
  In c (snd (files_run self name files)) ->
  exists f, In f files /\ In c (file_calls self name f).
Proof.
  induction files as [|f rest IH]; simpl; [intros []|].
  destruct (file_answer self name f) as [secrets|e].
  - destruct (files_run self name rest) as [[more failure] calls]; simpl in *.
    intros H. apply in_app_or in H as [H|H].
    + destruct (IH H) as (g & Hg & Hc). exists g. split; [now right|assumption].
    + exists f. split; [now left|assumption].
  - simpl. intros H. exists f. split; [now left|assumption].
Qed.

Lemma fetch_in_file_calls (f : FileInfo) (n p : string) :
  In (CallGetFileContent n p) (file_calls self name f) ->
  should_scan_file (secret_detector self) p = true.
Proof.
  unfold file_calls.
  destruct (should_scan_file (secret_detector self) (path f)) eqn:E; simpl.
  - destruct (get_file_content (github_scanner self) name (path f)) as [content|e];
      [destruct (truthy content)|]; simpl; intros H;
      repeat (destruct H as [H|H]; [inversion H; subst; assumption|]);
      contradiction.
  - intros [H|[]]. discriminate.
Qed.

Lemma detect_in_file_calls (f : FileInfo) (c p : string) :
  In (CallDetect c p) (file_calls self name f) ->
  should_scan_file (secret_detector self) p = true
  /\ get_file_content (github_scanner self) name p = Ok (Some c)
  /\ c <> "".
Proof.
  unfold file_calls.
  destruct (should_scan_file (secret_detector self) (path f)) eqn:E; simpl.
  - destruct (get_file_content (github_scanner self) name (path f))
      as [content|e] eqn:G.
    + destruct (truthy content) eqn:T; simpl; intros H.
      * destruct H as [H|[H|[H|[]]]]; try discriminate.
        inversion H; subst. apply truthy_text in T as [T1 T2].
        rewrite <- T1. auto.
      * destruct H as [H|[H|[]]]; discriminate.
    + simpl. intros H. destruct H as [H|[H|[]]]; discriminate.
  - intros [H|[]]. discriminate.
Qed.

End Files.

(** The calls of one pass, sorted: listing, file loop, deduplication and
    filter; none is a repository listing, a report or a clock reading. *)
Lemma repo_pass_calls (self : CloudScanner) (repo : Repo) (st : string) (c : Call) :
  In c (snd (repo_pass self repo st)) ->
  c = CallGetRepoFiles (full_name repo)
  \/ (exists files f,
        get_repo_files (github_scanner self) (full_name repo) = Ok files
        /\ In f files /\ In c (file_calls self (full_name repo) f))
  \/ (exists l, c = CallDeduplicate l)
  \/ (exists l, c = CallFilter l).
Proof.
  unfold repo_pass.
  destruct (get_repo_files (github_scanner self) (full_name repo)) as [files|e].
  - pose proof (files_run_calls self (full_name repo) files c) as Hc.
    destruct (files_run self (full_name repo) files) as [[collected [e|]] calls];
      cbn in *; intros H.
    + apply in_app_or in H as [H|[H|[]]]; [|now left].
      destruct (Hc H) as (f & Hf & Hin). right. left. now exists files, f.
    + destruct H as [H|[H|H]]; [right; right; right; eauto|right; right; left; eauto|].
      apply in_app_or in H as [H|[H|[]]]; [|now left].
      destruct (Hc H) as (f & Hf & Hin). right. left. now exists files, f.
  - cbn. intros [H|[]]. now left.
Qed.

Lemma repo_pass_plain_calls (self : CloudScanner) (repo : Repo) (st : string) :
  Forall (fun c => is_repo_listing c = false /\ is_report_call c = false /\ c <> CallNow)
         (snd (repo_pass self repo st)).
Proof.
  apply Forall_forall. intros c H.
  apply repo_pass_calls in H as [->|[(files & f & _ & _ & H)|[[l ->]|[l ->]]]];
    try (repeat split; (reflexivity || discriminate)).
  pose proof (file_calls_kind self (full_name repo) f) as K.
  rewrite Forall_forall in K. specialize (K c H).
  destruct c; try discriminate; repeat split; (reflexivity || discriminate).
Qed.

(** ** The calls of a pass over the repositories *)

Lemma enrich_enriched (repo : Repo) (st : string) (secrets : list Finding) :
  Forall (enriched repo st) (map (enrich repo st) secrets).
Proof.
  apply Forall_forall. intros f H. apply in_map_iff in H as (s & <- & _).
  repeat split.
Qed.

Lemma within_more (self : CloudScanner) (repos more : list Repo) (c : Call) :
  (forall repo, In repo repos -> In repo more) ->
  within_one_repository self repos c -> within_one_repository self more c.
Proof.
  intros Hsub. destruct c; cbn; try exact (fun H => H).
  - intros (repo & Hin & H). exists repo. auto.
  - intros (repo & raw & Hin & H). exists repo, raw. split; [auto|exact H].
Qed.

Lemma file_call_within (self : CloudScanner) (repos : list Repo) (c : Call) :
  is_file_call c = true -> within_one_repository self repos c.
Proof.
  destruct c; cbn; intros H; try discriminate; exact I.
Qed.

Lemma pass_within (self : CloudScanner) (repo : Repo) (st : string) :
  Forall (within_one_repository self [repo]) (snd (repo_pass self repo st)).
Proof.
  assert (Hraw : forall collected,
             Forall (fun f => repo_name f = Some (full_name repo))
                    (map (enrich repo st) collected)).
  { intros collected. eapply Forall_impl; [|apply enrich_enriched].
    intros f (_ & H & _). exact H. }
  assert (Hfile : forall files,
             Forall (within_one_repository self [repo])
                    (snd (files_run self (full_name repo) files))).
  { intros files. apply Forall_forall. intros c Hc.
    apply files_run_calls in Hc as (f & _ & Hc).
    pose proof (file_calls_kind self (full_name repo) f) as K.
    rewrite Forall_forall in K. apply file_call_within. now apply K. }
  unfold repo_pass.
  destruct (get_repo_files (github_scanner self) (full_name repo)) as [files|e];
    [|repeat constructor].
  specialize (Hfile files).
  destruct (files_run self (full_name repo) files) as [[collected [e|]] calls];
    cbn [snd] in *.
  - apply Forall_app. split; [assumption|repeat constructor].
  - constructor.
    { exists repo, (map (enrich repo st) collected).
      split; [now left|]. split; [apply Hraw|reflexivity]. }
    constructor.
    { exists repo. split; [now left|apply Hraw]. }
    apply Forall_app. split; [assumption|repeat constructor].
Qed.

Section Aggregation.

Variable clock : nat -> datetime.
Variable strftime : datetime -> string.
Variable self : CloudScanner.

Lemma world_after_calls (repos : list Repo) (w : World) :
  exists calls,
    trace (world_after clock strftime self repos w) = calls ++ trace w
    /\ Forall (within_one_repository self repos) calls
    /\ Forall (fun c => is_repo_listing c = false /\ is_report_call c = false) calls
    /\ (forall repo, In repo repos -> In (CallGetRepoFiles (full_name repo)) calls).
Proof.
  revert w. induction repos as [|repo rest IH]; intros w.
  - exists []. repeat split; try constructor. intros repo [].
  - rewrite world_after_cons.
    destruct (IH (extend (snd (repo_pass self repo (strftime (clock (ticks w))))) (tick w)))
      as (calls & Htrace & Hwithin & Hplain & Hlisted).
    exists (calls ++ snd (repo_pass self repo (strftime (clock (ticks w)))) ++ [CallNow]).
    split; [|split; [|split]].
    + rewrite Htrace. cbn. now rewrite <- !app_assoc.
    + apply Forall_app. split.
      * eapply Forall_impl; [|exact Hwithin].
        intros c. apply within_more. intros r Hr. now right.
      * apply Forall_app. split; [|repeat constructor].
        eapply Forall_impl; [|apply pass_within].
        intros c. apply within_more. intros r [<-|[]]. now left.
    + apply Forall_app. split; [assumption|].
      apply Forall_app. split; [|repeat constructor].
      eapply Forall_impl; [|apply repo_pass_plain_calls].
      intros c (H1 & H2 & _). now split.
    + intros r [<-|Hr]; apply in_or_app.
      * right. apply in_or_app. left. apply listed_in_pass.
      * left. now apply Hlisted.
Qed.

Lemma contributions_are_scans (repos : list Repo) (w : World) :
  Forall2 (fun repo findings =>
             exists wa wb,
               _scan_repository clock strftime self repo wa = (Ok findings, wb))
          repos (contributions clock strftime self repos w).
Proof.
  revert w. induction repos as [|repo rest IH]; intros w.
  - constructor.
  - rewrite contributions_cons. constructor; [|apply IH].
    exists w. eexists. apply scan_repository_run.
Qed.

End Aggregation.

(** ** Fault isolation between repositories *)

Lemma listing_failure_pass (self : CloudScanner) (repo : Repo) (st : string) (e : exn) :
  get_repo_files (github_scanner self) (full_name repo) = Raise e ->
  repo_pass self repo st = ([], [CallGetRepoFiles (full_name repo)]).
Proof.
  intros H. unfold repo_pass. now rewrite H.
Qed.

Lemma unlisted_contribute_nothing (clock : nat -> datetime) (strftime : datetime -> string)
      (self : CloudScanner) (repos : list Repo) (w : World) :
  Forall2 (fun repo findings =>
             (exists e, get_repo_files (github_scanner self) (full_name repo) = Raise e) ->
             findings = [])
          repos (contributions clock strftime self repos w).
Proof.
  revert w. induction repos as [|repo rest IH]; intros w.
  - constructor.
  - rewrite contributions_cons. constructor; [|apply IH].
    intros [e He]. now rewrite (listing_failure_pass self repo _ e He).
Qed.

(** C1 (as it reads, on [Demo.scanner]): user bob has one repository; the
    fetch of its second file raises, and the repository still contributes
    the three findings of its first file to the report. *)
Lemma failed_repo_contributes_nothing_fails :
  ~ failed_repo_contributes_nothing Demo.clock Demo.strftime Demo.scanner.
Proof.
  intros H.
  specialize (H (User "bob") [Demo.leaky] Demo.w0 eq_refl).
  remember (contributions Demo.clock Demo.strftime Demo.scanner [Demo.leaky]
              (log (listing_call (User "bob")) (tick Demo.w0))) as per_repo eqn:E.
  vm_compute in E. subst per_repo.
  inversion H as [|repo findings rs fs Hfirst _]; subst.
  assert (F : repo_failure Demo.scanner (full_name Demo.leaky) <> None)
    by (vm_compute; discriminate).
  specialize (Hfirst F). discriminate.
Qed.

(** C1 (amended): in every multi-repository scan whose repository listing
    succeeds, the scan returns a report location and never raises, whatever
    is raised while a repository is processed; the report receives the
    concatenation of the per-repository lists; every repository of the
    target is processed (the scan calls its file listing); a repository whose
    file-listing call raises contributes zero findings; and for three
    repositories of which the second fails to list, the report receives
    exactly the findings of the first and the third. *)
Theorem fault_isolation (clock : nat -> datetime) (strftime : datetime -> string)
        (self : CloudScanner) (t : Target) (repos : list Repo) (w : World) :
  resolve self t = Ok repos ->
  let w1 := log (listing_call t) (tick w) in
  let per_repo := contributions clock strftime self repos w1 in
  exists report_path w',
    scan_target clock strftime self t w = (Ok report_path, w')
    /\ reported (trace w') = Some (concat per_repo)
    /\ (exists calls,
          trace w'
          = CallGenerateSummary report_path (length (concat per_repo))
              :: CallGenerateReport (concat per_repo) (clock (ticks w)) (scan_type_of t)
              :: calls ++ trace w1
          /\ forall repo, In repo repos -> In (CallGetRepoFiles (full_name repo)) calls)
    /\ Forall2 (fun repo findings =>
                  (exists e, get_repo_files (github_scanner self) (full_name repo) = Raise e) ->
                  findings = [])
               repos per_repo
    /\ (forall r1 r2 r3 e,
          repos = [r1; r2; r3] ->
          get_repo_files (github_scanner self) (full_name r2) = Raise e ->
          exists f1 f3 wa wb wc,
            _scan_repository clock strftime self r1 w1 = (Ok f1, wa)
            /\ _scan_repository clock strftime self r2 wa = (Ok [], wb)
            /\ _scan_repository clock strftime self r3 wb = (Ok f3, wc)
            /\ reported (trace w') = Some (f1 ++ f3)).
Proof.
  intros H w1 per_repo.
  eexists. eexists. split; [apply (scan_target_ok clock strftime self t repos w H)|].
  split; [reflexivity|].
  split.
  { destruct (world_after_calls clock strftime self repos w1)
      as (calls & Htrace & _ & _ & Hlisted).
    exists calls. split; [|exact Hlisted]. cbn [trace log].
    fold w1. now rewrite Htrace. }
  split; [apply unlisted_contribute_nothing|].
  intros r1 r2 r3 e -> He.
  do 5 eexists.
  split; [apply scan_repository_run|].
  split.
  { rewrite scan_repository_run, (listing_failure_pass self r2 _ e He). reflexivity. }
  split; [apply scan_repository_run|].
  cbn [trace log reported]. f_equal. unfold per_repo.
  rewrite !contributions_cons. rewrite (listing_failure_pass self r2 _ e He).
  cbn [concat fst snd contributions app]. now rewrite app_nil_r.
Qed.

Lemma fault_isolation_witness :
  resolve Demo.scanner (User "alice") = Ok [Demo.one; Demo.two; Demo.three]
  /\ exists report_path w',
       scan_target Demo.clock Demo.strftime Demo.scanner (User "alice") Demo.w0
       = (Ok report_path, w')
       /\ reported (trace w')
          = Some (concat (contributions Demo.clock Demo.strftime Demo.scanner
                            [Demo.one; Demo.two; Demo.three]
                            (log (CallGetUserRepos "alice") (tick Demo.w0)))).
Proof.
  split; [reflexivity|].
  destruct (fault_isolation Demo.clock Demo.strftime Demo.scanner (User "alice")
              [Demo.one; Demo.two; Demo.three] Demo.w0 eq_refl)
    as (report_path & w' & Hrun & Hrep & _).
  exists report_path, w'. split; assumption.
Defined.

(** The scenario of the specification, run: alice has three repositories,
    the second fails to list; the report holds one finding of the first and
    one of the third. *)
Example three_repositories_second_fails :
  exists w',
    scan_user Demo.clock Demo.strftime Demo.scanner "alice" Demo.w0
    = (Ok "reports/user:alice.md", w')
    /\ reported (trace w')
       = Some [enrich Demo.one "2023-11-14 22:13:21" (Demo.aws "config.py" 1);
               enrich Demo.three "2023-11-14 22:13:23" (Demo.aws "config.py" 1)].
Proof.
  eexists. split; vm_compute; reflexivity.
Qed.

(** ** A raise inside the file loop *)

(** C2 (as it reads, on [Demo.scanner]): in bob/leaky the fetch of b.env
    raises; c.env, which comes after it, is never looked at. *)
Lemma per_file_isolation_fails :
  ~ per_file_isolation Demo.clock Demo.strftime Demo.scanner.
Proof.
  intros H.
  assert (Hpre : Forall (file_ok Demo.scanner (full_name Demo.leaky)) [mkFile "a.env" 64]).
  { constructor; [|constructor]. eexists. vm_compute. reflexivity. }
  specialize (H Demo.leaky [mkFile "a.env" 64] (mkFile "b.env" 64) [mkFile "c.env" 64]
                Demo.timed_out Demo.w0 eq_refl Hpre eq_refl
                (mkFile "c.env" 64) (or_introl eq_refl)).
  vm_compute in H.
  repeat (destruct H as [H|H]; [discriminate H|]).
  exact H.
Qed.

(** C2 (amended): a fetch or detection error on file k is caught by the
    handler of the repository, not per file.  File k adds nothing to the
    findings, the loop ends there (after the calls made for file k no call
    is made for a later file), and [_scan_repository] returns normally. *)
Theorem file_failure_ends_repository_scan
        (clock : nat -> datetime) (strftime : datetime -> string)
        (self : CloudScanner) (repo : Repo)
        (pre post : list FileInfo) (fk : FileInfo) (e : exn) (w : World) :
  get_repo_files (github_scanner self) (full_name repo) = Ok (pre ++ fk :: post) ->
  Forall (file_ok self (full_name repo)) pre ->
  file_answer self (full_name repo) fk = Raise e ->
  (forall st acc w0,
     exists acc_pre w_pre,
       for_each pre (scan_file self repo st) (acc, w0) = (Ok tt, (acc_pre, w_pre))
       /\ for_each (pre ++ fk :: post) (scan_file self repo st) (acc, w0)
          = (Raise e, (acc_pre, extend (file_calls self (full_name repo) fk) w_pre)))
  /\ exists findings,
       _scan_repository clock strftime self repo w
       = (Ok findings,
          extend (file_calls self (full_name repo) fk
                  ++ snd (files_run self (full_name repo) pre)
                  ++ [CallGetRepoFiles (full_name repo)])
                 (tick w)).
Proof.
  intros Hfiles Hpre Hk. split.
  - intros st acc w0.
    rewrite !scan_files_run, (files_run_stops self (full_name repo) pre post fk e Hpre Hk).
    pose proof (files_run_clean self (full_name repo) pre Hpre) as Hclean.
    destruct (files_run self (full_name repo) pre) as [[collected failure] calls].
    cbn in Hclean. subst failure. cbn [fst snd].
    do 2 eexists. split; [reflexivity|]. now rewrite extend_app.
  - eexists. rewrite scan_repository_run. unfold repo_pass.
    rewrite Hfiles, (files_run_stops self (full_name repo) pre post fk e Hpre Hk).
    cbn [fst snd]. now rewrite <- app_assoc.
Qed.

Lemma file_failure_ends_repository_scan_witness :
  get_repo_files Demo.github "bob/leaky"
  = Ok ([mkFile "a.env" 64] ++ mkFile "b.env" 64 :: [mkFile "c.env" 64])
  /\ file_answer Demo.scanner "bob/leaky" (mkFile "b.env" 64) = Raise Demo.timed_out
  /\ exists findings w',
       _scan_repository Demo.clock Demo.strftime Demo.scanner Demo.leaky Demo.w0
       = (Ok findings, w').
Proof.
  split; [reflexivity|]. split; [reflexivity|].
  assert (Hpre : Forall (file_ok Demo.scanner (full_name Demo.leaky)) [mkFile "a.env" 64]).
  { constructor; [|constructor]. eexists. vm_compute. reflexivity. }
  destruct (file_failure_ends_repository_scan Demo.clock Demo.strftime Demo.scanner
              Demo.leaky [mkFile "a.env" 64] [mkFile "c.env" 64] (mkFile "b.env" 64)
              Demo.timed_out Demo.w0 eq_refl Hpre eq_refl) as (_ & findings & Hrun).
  exists findings. eexists. exact Hrun.
Defined.

(** ** Threshold and uniqueness of the returned findings *)

Lemma clean_pass_is_filtered (self : CloudScanner) (repo : Repo) (st : string)
      (files : list FileInfo) :
  get_repo_files (github_scanner self) (full_name repo) = Ok files ->
  Forall (file_ok self (full_name repo)) files ->
  let d := secret_detector self in
  let raw := raw_findings self repo st files in
  repo_pass self repo st
  = (filter_high_confidence d (deduplicate_findings d raw),
     CallFilter (deduplicate_findings d raw) :: CallDeduplicate raw
       :: snd (files_run self (full_name repo) files)
       ++ [CallGetRepoFiles (full_name repo)]).
Proof.
  intros Hfiles Hok d raw. unfold repo_pass. rewrite Hfiles.
  pose proof (files_run_clean self (full_name repo) files Hok) as Hclean.
  pose proof (files_run_collected self (full_name repo) repo st files eq_refl Hok) as Hraw.
  destruct (files_run self (full_name repo) files) as [[collected failure] calls].
  cbn in Hclean, Hraw. subst failure. cbn [snd]. now rewrite Hraw.
Qed.

Lemma settled_pass_invariant (self : CloudScanner) (threshold : Z) (repo : Repo) (st : string) :
  conforms (secret_detector self) threshold ->
  no_file_failure self (full_name repo) ->
  findings_invariant threshold (fst (repo_pass self repo st)).
Proof.
  intros [Hd Hf] Hsettled. unfold no_file_failure in Hsettled.
  destruct (get_repo_files (github_scanner self) (full_name repo)) as [files|e] eqn:Hfiles.
  - rewrite (clean_pass_is_filtered self repo st files Hfiles Hsettled). cbn [fst].
    rewrite Hf, Hd. split.
    + apply filter_spec_above.
    + apply filter_keeps_NoDup, deduplicate_spec_NoDup.
  - rewrite (listing_failure_pass self repo st e Hfiles). split; constructor.
Qed.

Lemma settled_contributions (clock : nat -> datetime) (strftime : datetime -> string)
      (self : CloudScanner) (threshold : Z) (repos : list Repo) (w : World) :
  conforms (secret_detector self) threshold ->
  Forall (fun repo => no_file_failure self (full_name repo)) repos ->
  Forall (findings_invariant threshold) (contributions clock strftime self repos w).
Proof.
  intros Hc Hall. revert w.
  induction Hall as [|repo rest Hrepo _ IH]; intros w.
  - constructor.
  - rewrite contributions_cons. constructor; [|apply IH].
    now apply settled_pass_invariant.
Qed.

Lemma demo_conforms : conforms Demo.detector Demo.threshold.
Proof. split; reflexivity. Qed.

(** The invariant as it reads, on [Demo.scanner], whose detector
    deduplicates and filters as the spec says, threshold 50.  In bob/leaky
    the fetch of the second file raises: [_scan_repository] returns the
    three findings of the first file as collected.  Organisation acme has two
    repositories with the same key in config.py: the report receives one
    entry per repository, as the aggregation has it. *)
Lemma findings_invariant_fails :
  conforms Demo.detector Demo.threshold
  /\ ~ repository_result_invariant Demo.clock Demo.strftime Demo.scanner Demo.threshold
  /\ ~ scan_result_invariant Demo.clock Demo.strftime Demo.scanner Demo.threshold.
Proof.
  split; [exact demo_conforms|]. split.
  - intros H. specialize (H Demo.leaky Demo.w0).
    remember (_scan_repository Demo.clock Demo.strftime Demo.scanner Demo.leaky Demo.w0)
      as r eqn:E in H.
    vm_compute in E. subst r.
    destruct (H _ _ eq_refl) as [Habove _].
    apply Forall_inv in Habove. unfold above, Demo.threshold in Habove.
    cbn in Habove. lia.
  - intros H. specialize (H (Organization "acme") Demo.w0).
    remember (scan_target Demo.clock Demo.strftime Demo.scanner (Organization "acme") Demo.w0)
      as r eqn:E in H.
    vm_compute in E. subst r.
    destruct (H _ _ _ eq_refl eq_refl) as [_ Hnodup].
    cbn in Hnodup. inversion Hnodup as [|k ks Hk _]. apply Hk. now left.
Qed.

(** Where the invariant does hold, for a detector that deduplicates and
    filters as the spec says: every list returned by a [_scan_repository]
    run whose file listing raises or in which no file raises has every
    finding at or above the threshold and no two findings with the same
    (category, matched text, file path); in a scan all of whose repositories
    are of this kind, every finding handed to the report generator is at or
    above the threshold, and keys are unique within each repository's
    list.  What is left is a raise inside the file loop. *)
Theorem clean_scan_invariant (clock : nat -> datetime) (strftime : datetime -> string)
        (self : CloudScanner) (threshold : Z) :
  conforms (secret_detector self) threshold ->
  (forall repo w,
     no_file_failure self (full_name repo) ->
     exists findings w',
       _scan_repository clock strftime self repo w = (Ok findings, w')
       /\ Forall (above threshold) findings
       /\ NoDup (map finding_key findings))
  /\ (forall t repos w,
        resolve self t = Ok repos ->
        Forall (fun repo => no_file_failure self (full_name repo)) repos ->
        let per_repo :=
          contributions clock strftime self repos (log (listing_call t) (tick w)) in
        exists report_path w',
          scan_target clock strftime self t w = (Ok report_path, w')
          /\ reported (trace w') = Some (concat per_repo)
          /\ Forall (above threshold) (concat per_repo)
          /\ Forall (fun findings => NoDup (map finding_key findings)) per_repo).
Proof.
  intros Hc. split.
  - intros repo w Hsettled. do 2 eexists.
    split; [apply scan_repository_run|].
    now apply settled_pass_invariant.
  - intros t repos w Hres Hall per_repo.
    do 2 eexists. split; [apply (scan_target_ok clock strftime self t repos w Hres)|].
    split; [reflexivity|].
    pose proof (settled_contributions clock strftime self threshold repos
                  (log (listing_call t) (tick w)) Hc Hall) as Hinv.
    fold per_repo in Hinv. clearbody per_repo. split.
    + induction Hinv as [|findings rest [Hab _] _ IH]; cbn [concat]; [constructor|].
      apply Forall_app. now split.
    + eapply Forall_impl; [|exact Hinv]. intros findings [_ Hnd]. exact Hnd.
Qed.

Lemma clean_scan_invariant_witness :
  conforms (secret_detector Demo.scanner) Demo.threshold
  /\ resolve Demo.scanner (User "alice") = Ok [Demo.one; Demo.two; Demo.three]
  /\ Forall (fun repo => no_file_failure Demo.scanner (full_name repo))
            [Demo.one; Demo.two; Demo.three]
  /\ exists report_path w',
       scan_target Demo.clock Demo.strftime Demo.scanner (User "alice") Demo.w0
       = (Ok report_path, w')
       /\ Forall (above Demo.threshold)
                 (concat (contributions Demo.clock Demo.strftime Demo.scanner
                            [Demo.one; Demo.two; Demo.three]
                            (log (CallGetUserRepos "alice") (tick Demo.w0)))).
Proof.
  assert (Hall : Forall (fun repo => no_file_failure Demo.scanner (full_name repo))
                        [Demo.one; Demo.two; Demo.three]).
  { constructor.
    { cbv [no_file_failure]. cbn.
      repeat (constructor; [eexists; vm_compute; reflexivity|]). constructor. }
    constructor; [exact I|].
    constructor; [|constructor].
    cbv [no_file_failure]. cbn.
    repeat (constructor; [eexists; vm_compute; reflexivity|]). constructor. }
  split; [exact demo_conforms|]. split; [reflexivity|]. split; [exact Hall|].
  destruct (proj2 (clean_scan_invariant Demo.clock Demo.strftime Demo.scanner
                     Demo.threshold demo_conforms)
              (User "alice") [Demo.one; Demo.two; Demo.three] Demo.w0 eq_refl Hall)
    as (report_path & w' & Hrun & _ & Habove & _).
  exists report_path, w'. now split.
Defined.

(** C3: the code breaks the invariant when the file loop raises.  On
    [Demo.scanner] (detector as the spec says, threshold 50) the fetch of
    the second file of bob/leaky raises.  [_scan_repository] returns the
    three findings of the first file as the loop collected them: one has
    confidence 10, two share their key.  The deduplication and filter of
    lines 220-221, which the raise skips, would have left one finding.  The
    same list is what [scan_user] hands to the report generator. *)
Theorem leaky_scan_returns_unfiltered :
  let collected :=
    map (enrich Demo.leaky "2023-11-14 22:13:20")
        [Demo.weak "a.env" 2; Demo.aws "a.env" 4; Demo.aws "a.env" 9] in
  conforms Demo.detector Demo.threshold
  /\ repo_failure Demo.scanner (full_name Demo.leaky) = Some Demo.timed_out
  /\ fst (_scan_repository Demo.clock Demo.strftime Demo.scanner Demo.leaky Demo.w0)
     = Ok collected
  /\ ~ Forall (above Demo.threshold) collected
  /\ ~ NoDup (map finding_key collected)
  /\ filter_high_confidence Demo.detector (deduplicate_findings Demo.detector collected)
     = [enrich Demo.leaky "2023-11-14 22:13:20" (Demo.aws "a.env" 4)]
  /\ option_map (map (fun f => (finding_key f, confidence f)))
        (reported (trace (snd (scan_user Demo.clock Demo.strftime Demo.scanner
                                         "bob" Demo.w0))))
     = Some (map (fun f => (finding_key f, confidence f)) collected).
Proof.
  intros collected.
  split; [exact demo_conforms|].
  split; [reflexivity|].
  split; [vm_compute; reflexivity|].
  split.
  { intros H. apply Forall_inv in H. unfold above, Demo.threshold in H.
    cbn in H. lia. }
  split.
  { intros H. cbn in H. inversion H as [|k1 ks1 _ H1]; subst.
    inversion H1 as [|k2 ks2 Hk2 _]; subst. apply Hk2. now left. }
  split; vm_compute; reflexivity.
Qed.

(** ** Order of deduplication and filter *)

(** C4: in a repository scan in which nothing raises (the listing succeeds
    and no file of it raises in fetch or detection), the returned list is
    [filter_high_confidence (deduplicate_findings raw)] for the raw finding
    list [raw]; the deduplication is called on [raw], the filter on the
    output of the deduplication, and these are the last two calls of the
    scan: the calls before them are the listing and those of the file loop,
    so the filter never sees the raw list. *)
Theorem filter_follows_deduplication
        (clock : nat -> datetime) (strftime : datetime -> string)
        (self : CloudScanner) (repo : Repo) (files : list FileInfo) (w : World) :
  get_repo_files (github_scanner self) (full_name repo) = Ok files ->
  Forall (file_ok self (full_name repo)) files ->
  let d := secret_detector self in
  let raw := raw_findings self repo (strftime (clock (ticks w))) files in
  exists calls,
    _scan_repository clock strftime self repo w
    = (Ok (filter_high_confidence d (deduplicate_findings d raw)),
       extend (CallFilter (deduplicate_findings d raw) :: CallDeduplicate raw :: calls)
              (tick w))
    /\ Forall (fun c => is_file_call c = true \/ c = CallGetRepoFiles (full_name repo))
              calls.
Proof.
  intros Hfiles Hok d raw.
  exists (snd (files_run self (full_name repo) files) ++ [CallGetRepoFiles (full_name repo)]).
  split.
  - rewrite scan_repository_run.
    now rewrite (clean_pass_is_filtered self repo _ files Hfiles Hok).
  - apply Forall_app. split; [|constructor; [now right|constructor]].
    apply Forall_forall. intros c Hc. left.
    apply files_run_calls in Hc as (f & _ & Hc).
    pose proof (file_calls_kind self (full_name repo) f) as K.
    rewrite Forall_forall in K. now apply K.
Qed.

Lemma filter_follows_deduplication_witness :
  get_repo_files Demo.github "alice/three"
  = Ok [mkFile "config.py" 80; mkFile "notes.txt" 40]
  /\ Forall (file_ok Demo.scanner "alice/three")
            [mkFile "config.py" 80; mkFile "notes.txt" 40]
  /\ fst (_scan_repository Demo.clock Demo.strftime Demo.scanner Demo.three Demo.w0)
     = Ok (filter_high_confidence_spec Demo.threshold
             (deduplicate_findings_spec
                (raw_findings Demo.scanner Demo.three "2023-11-14 22:13:20"
                   [mkFile "config.py" 80; mkFile "notes.txt" 40]))).
Proof.
  assert (Hok : Forall (file_ok Demo.scanner (full_name Demo.three))
                       [mkFile "config.py" 80; mkFile "notes.txt" 40]).
  { repeat constructor; eexists; vm_compute; reflexivity. }
  split; [reflexivity|]. split; [exact Hok|].
  destruct (filter_follows_deduplication Demo.clock Demo.strftime Demo.scanner Demo.three
              [mkFile "config.py" 80; mkFile "notes.txt" 40] Demo.w0 eq_refl Hok)
    as (calls & Hrun & _).
  rewrite Hrun. reflexivity.
Defined.

(** The filter sees the survivor of the deduplication: in alice/three the
    raw list has three entries, the filter is called on two and one is
    returned. *)
Example filter_sees_survivors :
  exists w',
    _scan_repository Demo.clock Demo.strftime Demo.scanner Demo.three Demo.w0
    = (Ok [enrich Demo.three "2023-11-14 22:13:20" (Demo.aws "config.py" 1)], w')
    /\ In (CallFilter [enrich Demo.three "2023-11-14 22:13:20" (Demo.aws "config.py" 1);
                       enrich Demo.three "2023-11-14 22:13:20" (Demo.weak "notes.txt" 3)])
          (trace w').
Proof.
  eexists. split; [vm_compute; reflexivity|]. vm_compute. now left.
Qed.

(** ** Aggregation over the repositories of a target *)

(** C5: in every multi-repository scan whose repository listing succeeds,
    the list handed to [generate_report] is the concatenation, in repository
    order, of the lists the [_scan_repository] calls return; between the
    repository loop and the report no other call is made, and every
    deduplication or filter call of the scan works on findings of one
    repository. *)
Theorem aggregation_is_concatenation
        (clock : nat -> datetime) (strftime : datetime -> string)
        (self : CloudScanner) (t : Target) (repos : list Repo) (w : World) :
  resolve self t = Ok repos ->
  let w1 := log (listing_call t) (tick w) in
  let per_repo := contributions clock strftime self repos w1 in
  let all := concat per_repo in
  let start := clock (ticks w) in
  exists report_path w2 calls,
    scan_target clock strftime self t w
    = (Ok report_path,
       log (CallGenerateSummary report_path (length all))
           (log (CallGenerateReport all start (scan_type_of t)) w2))
    /\ Forall2 (fun repo findings =>
                  exists wa wb,
                    _scan_repository clock strftime self repo wa = (Ok findings, wb))
               repos per_repo
    /\ trace w2 = calls ++ trace w1
    /\ Forall (within_one_repository self repos) calls.
Proof.
  intros H w1 per_repo all start.
  destruct (world_after_calls clock strftime self repos w1)
    as (calls & Htrace & Hwithin & _ & _).
  eexists. exists (world_after clock strftime self repos w1), calls.
  split; [apply (scan_target_ok clock strftime self t repos w H)|].
  split; [apply contributions_are_scans|].
  split; assumption.
Qed.

Lemma aggregation_is_concatenation_witness :
  resolve Demo.scanner (Organization "acme") = Ok [Demo.app; Demo.three]
  /\ exists report_path w',
       scan_target Demo.clock Demo.strftime Demo.scanner (Organization "acme") Demo.w0
       = (Ok report_path, w')
       /\ reported (trace w')
          = Some (concat (contributions Demo.clock Demo.strftime Demo.scanner
                            [Demo.app; Demo.three]
                            (log (CallGetOrgRepos "acme") (tick Demo.w0)))).
Proof.
  split; [reflexivity|].
  destruct (aggregation_is_concatenation Demo.clock Demo.strftime Demo.scanner
              (Organization "acme") [Demo.app; Demo.three] Demo.w0 eq_refl)
    as (report_path & w2 & calls & Hrun & _).
  exists report_path. eexists. split; [exact Hrun|reflexivity].
Defined.

(** No deduplication across repositories: the same key in acme/app and in
    alice/three reaches the report twice. *)
Example same_key_in_two_repositories :
  exists w',
    scan_organization Demo.clock Demo.strftime Demo.scanner "acme" Demo.w0
    = (Ok "reports/org:acme.md", w')
    /\ reported (trace w')
       = Some [enrich Demo.app "2023-11-14 22:13:21" (Demo.aws "config.py" 1);
               enrich Demo.three "2023-11-14 22:13:22" (Demo.aws "config.py" 1)].
Proof.
  eexists. split; vm_compute; reflexivity.
Qed.

(** ** Failure of the repository listing *)

(** C6: when the repository listing of [scan_user] or [scan_organization]
    raises, the exception reaches the caller; the calls of the invocation
    are the clock reading and the listing, so no report is generated and no
    report location is returned. *)
Theorem listing_failure_propagates
        (clock : nat -> datetime) (strftime : datetime -> string)
        (self : CloudScanner) (name : string) (e : exn) (w : World) :
  (get_user_repos (github_scanner self) name = Raise e ->
   scan_user clock strftime self name w
   = (Raise e, {| ticks := S (ticks w);
                  trace := CallGetUserRepos name :: CallNow :: trace w |}))
  /\ (get_org_repos (github_scanner self) name = Raise e ->
      scan_organization clock strftime self name w
      = (Raise e, {| ticks := S (ticks w);
                     trace := CallGetOrgRepos name :: CallNow :: trace w |})).
Proof.
  split; intros H.
  - apply (scan_target_raise clock strftime self (User name) e w H).
  - apply (scan_target_raise clock strftime self (Organization name) e w H).
Qed.

Lemma listing_failure_propagates_witness :
  get_user_repos Demo.github "carol" = Raise Demo.not_found
  /\ get_org_repos Demo.github "carol" = Raise Demo.not_found
  /\ scan_user Demo.clock Demo.strftime Demo.scanner "carol" Demo.w0
     = (Raise Demo.not_found,
        {| ticks := 1; trace := [CallGetUserRepos "carol"; CallNow] |})
  /\ scan_organization Demo.clock Demo.strftime Demo.scanner "carol" Demo.w0
     = (Raise Demo.not_found,
        {| ticks := 1; trace := [CallGetOrgRepos "carol"; CallNow] |}).
Proof.
  destruct (listing_failure_propagates Demo.clock Demo.strftime Demo.scanner
              "carol" Demo.not_found Demo.w0) as [Huser Horg].
  split; [reflexivity|]. split; [reflexivity|].
  split; [exact (Huser eq_refl)|exact (Horg eq_refl)].
Defined.

(** ** The single-repository scan *)

(** C7: for every string [R], [scan_single_repo R] scans the repository
    reference it builds itself (full name [R], URL "https://github.com/" + R,
    clone URL "https://github.com/" + R + ".git"), makes no repository
    listing call, and generates the report with scan type "single:" + R. *)
Theorem single_repo_scan (clock : nat -> datetime) (strftime : datetime -> string)
        (self : CloudScanner) (R : string) (w : World) :
  let repo_info := {| full_name := R;
                      url := ("https://github.com/" ++ R)%string;
                      clone_url := ("https://github.com/" ++ R ++ ".git")%string |} in
  let start := clock (ticks w) in
  exists findings w1 calls,
    _scan_repository clock strftime self repo_info (tick w) = (Ok findings, w1)
    /\ scan_single_repo clock strftime self R w
       = (Ok (generate_report (report_generator self) findings start ("single:" ++ R)%string),
          log (CallGenerateSummary
                 (generate_report (report_generator self) findings start
                                  ("single:" ++ R)%string)
                 (length findings))
              (log (CallGenerateReport findings start ("single:" ++ R)%string) w1))
    /\ trace w1 = calls ++ CallNow :: CallNow :: trace w
    /\ Forall (fun c => is_repo_listing c = false) calls.
Proof.
  intros repo_info start.
  exists (fst (repo_pass self repo_info (strftime (clock (ticks (tick w)))))).
  exists (extend (snd (repo_pass self repo_info (strftime (clock (ticks (tick w))))))
                 (tick (tick w))).
  exists (snd (repo_pass self repo_info (strftime (clock (ticks (tick w)))))).
  split; [apply scan_repository_run|].
  split.
  - unfold scan_single_repo. rewrite bind_run. cbn [now].
    rewrite bind_run. fold (tick w). fold repo_info.
    rewrite scan_repository_run, report_run. reflexivity.
  - split; [reflexivity|].
    eapply Forall_impl; [|apply repo_pass_plain_calls].
    intros c (H & _). exact H.
Qed.

Example single_repo_scan_run :
  exists w',
    scan_single_repo Demo.clock Demo.strftime Demo.scanner "alice/one" Demo.w0
    = (Ok "reports/single:alice/one.md", w')
    /\ reported (trace w')
       = Some [enrich Demo.one "2023-11-14 22:13:21" (Demo.aws "config.py" 1)].
Proof.
  eexists. split; vm_compute; reflexivity.
Qed.

(** ** Files that are skipped *)

(** C8: a file for which [should_scan_file] answers false costs one
    iteration that makes the filter call only and leaves the findings as
    they were; over the whole repository scan no content fetch and no
    detection is made for its path. *)
Theorem skipped_file_untouched (clock : nat -> datetime) (strftime : datetime -> string)
        (self : CloudScanner) (repo : Repo) (p : string) (w : World) :
  should_scan_file (secret_detector self) p = false ->
  (forall f st acc w0,
     path f = p ->
     scan_file self repo st f (acc, w0) = (Ok tt, (acc, log (CallShouldScanFile p) w0)))
  /\ exists findings calls,
       _scan_repository clock strftime self repo w
       = (Ok findings, extend calls (tick w))
       /\ (forall n, ~ In (CallGetFileContent n p) calls)
       /\ (forall c, ~ In (CallDetect c p) calls).
Proof.
  intros Hskip. split.
  - intros f st acc w0 <-. rewrite scan_file_run.
    unfold file_answer, file_calls. rewrite Hskip. cbn. now rewrite app_nil_r.
  - do 2 eexists. split; [apply scan_repository_run|]. split.
    + intros n Hin.
      apply repo_pass_calls in Hin
        as [Hin|[(files & f & _ & _ & Hin)|[[l Hin]|[l Hin]]]]; try discriminate.
      apply fetch_in_file_calls in Hin. congruence.
    + intros c Hin.
      apply repo_pass_calls in Hin
        as [Hin|[(files & f & _ & _ & Hin)|[[l Hin]|[l Hin]]]]; try discriminate.
      apply detect_in_file_calls in Hin as (Hin & _). congruence.
Qed.

Lemma skipped_file_untouched_witness :
  should_scan_file Demo.detector "node_modules/x.js" = false
  /\ exists findings calls,
       _scan_repository Demo.clock Demo.strftime Demo.scanner Demo.one Demo.w0
       = (Ok findings, extend calls (tick Demo.w0))
       /\ (forall n, ~ In (CallGetFileContent n "node_modules/x.js") calls)
       /\ (forall c, ~ In (CallDetect c "node_modules/x.js") calls).
Proof.
  split; [reflexivity|].
  exact (proj2 (skipped_file_untouched Demo.clock Demo.strftime Demo.scanner Demo.one
                  "node_modules/x.js" Demo.w0 eq_refl)).
Defined.

(** ** Files without content *)

(** C9: when the content fetch of a file answers [None] or the empty
    string, its iteration calls no detector and leaves the findings as they
    were, and no detector call of the repository scan names its path; every
    detector call of a repository scan is on a non-empty text that the
    fetch returned for that path. *)
Theorem empty_content_not_detected
        (clock : nat -> datetime) (strftime : datetime -> string)
        (self : CloudScanner) (repo : Repo) (f : FileInfo) (content : option string)
        (w : World) :
  get_file_content (github_scanner self) (full_name repo) (path f) = Ok content ->
  content = None \/ content = Some "" ->
  (forall st acc w0,
     exists calls,
       scan_file self repo st f (acc, w0) = (Ok tt, (acc, extend calls w0))
       /\ forall c p, ~ In (CallDetect c p) calls)
  /\ exists findings calls,
       _scan_repository clock strftime self repo w
       = (Ok findings, extend calls (tick w))
       /\ (forall c, ~ In (CallDetect c (path f)) calls)
       /\ (forall c p,
             In (CallDetect c p) calls ->
             c <> ""
             /\ get_file_content (github_scanner self) (full_name repo) p = Ok (Some c)).
Proof.
  intros Hfetch Hempty.
  assert (Hdetect : forall st c p,
             In (CallDetect c p) (snd (repo_pass self repo st)) ->
             c <> ""
             /\ get_file_content (github_scanner self) (full_name repo) p = Ok (Some c)).
  { intros st c p Hin.
    apply repo_pass_calls in Hin
      as [Hin|[(files & g & _ & _ & Hin)|[[l Hin]|[l Hin]]]]; try discriminate.
    apply detect_in_file_calls in Hin as (_ & Hin & Hc). now split. }
  split.
  - intros st acc w0. exists (file_calls self (full_name repo) f).
    rewrite scan_file_run. unfold file_answer, file_calls.
    rewrite Hfetch, (falsy_content content Hempty).
    destruct (should_scan_file (secret_detector self) (path f)); cbn;
      rewrite app_nil_r; (split; [reflexivity|]); intros c p Hin;
      repeat (destruct Hin as [Hin|Hin]; [discriminate|]); exact Hin.
  - do 2 eexists. split; [apply scan_repository_run|]. split.
    + intros c Hin. apply Hdetect in Hin as [Hc Hin].
      rewrite Hfetch in Hin. destruct Hempty as [-> | ->]; congruence.
    + apply Hdetect.
Qed.

Lemma empty_content_not_detected_witness :
  get_file_content Demo.github "alice/one" "README" = Ok (Some "")
  /\ exists findings calls,
       _scan_repository Demo.clock Demo.strftime Demo.scanner Demo.one Demo.w0
       = (Ok findings, extend calls (tick Demo.w0))
       /\ (forall c, ~ In (CallDetect c "README") calls).
Proof.
  split; [reflexivity|].
  destruct (empty_content_not_detected Demo.clock Demo.strftime Demo.scanner Demo.one
              (mkFile "README" 0) (Some "") Demo.w0 eq_refl (or_intror eq_refl))
    as (_ & findings & calls & Hrun & Hnone & _).
  exists findings, calls. split; assumption.
Defined.

(** ** Enrichment *)

(** C10: one call of [_scan_repository] reads the clock once, as its first
    call, before the file listing and before any file is processed; every
    finding the file loop appends, and (deduplication and filter only
    selecting among them) every finding returned, carries the URL and the
    full name of the repository reference and the rendering of that one
    reading as scan time. *)
Theorem one_scan_time_per_repository
        (clock : nat -> datetime) (strftime : datetime -> string)
        (self : CloudScanner) (repo : Repo) (w : World) :
  selects (deduplicate_findings (secret_detector self)) ->
  selects (filter_high_confidence (secret_detector self)) ->
  let scan_time_str := strftime (clock (ticks w)) in
  (forall files acc w0,
     exists outcome appended w1,
       for_each files (scan_file self repo scan_time_str) (acc, w0)
       = (outcome, (acc ++ appended, w1))
       /\ Forall (enriched repo scan_time_str) appended)
  /\ exists findings calls,
       _scan_repository clock strftime self repo w
       = (Ok findings, {| ticks := S (ticks w); trace := calls ++ CallNow :: trace w |})
       /\ ~ In CallNow calls
       /\ Forall (enriched repo scan_time_str) findings.
Proof.
  intros Hd Hf scan_time_str. split.
  - intros files acc w0. rewrite scan_files_run.
    destruct (files_run self (full_name repo) files) as [[collected failure] calls].
    do 3 eexists. split; [reflexivity|apply enrich_enriched].
  - do 2 eexists. split; [apply scan_repository_run|]. split.
    + intros Hin.
      pose proof (repo_pass_plain_calls self repo scan_time_str) as K.
      rewrite Forall_forall in K. destruct (K _ Hin) as (_ & _ & Hne). now apply Hne.
    + fold scan_time_str. unfold repo_pass.
      destruct (get_repo_files (github_scanner self) (full_name repo)) as [files|e];
        [|constructor].
      destruct (files_run self (full_name repo) files) as [[collected [e|]] calls];
        cbn [fst]; [apply enrich_enriched|].
      apply Forall_forall. intros x Hx. apply Hf, Hd in Hx.
      pose proof (enrich_enriched repo scan_time_str collected) as K.
      rewrite Forall_forall in K. now apply K.
Qed.

Lemma one_scan_time_per_repository_witness :
  selects (deduplicate_findings (secret_detector Demo.scanner))
  /\ selects (filter_high_confidence (secret_detector Demo.scanner))
  /\ exists findings calls,
       _scan_repository Demo.clock Demo.strftime Demo.scanner Demo.three Demo.w0
       = (Ok findings, {| ticks := 1; trace := calls ++ [CallNow] |})
       /\ ~ In CallNow calls
       /\ Forall (enriched Demo.three "2023-11-14 22:13:20") findings.
Proof.
  split; [exact deduplicate_spec_selects|].
  split; [exact (filter_spec_selects Demo.threshold)|].
  exact (proj2 (one_scan_time_per_repository Demo.clock Demo.strftime Demo.scanner
                  Demo.three Demo.w0 deduplicate_spec_selects
                  (filter_spec_selects Demo.threshold))).
Defined.

(** Findings of different repositories of one scan carry different scan
    times: each repository scan reads the clock anew. *)
Example scan_times_differ :
  option_map (map scan_time)
    (reported (trace (snd (scan_user Demo.clock Demo.strftime Demo.scanner
                                     "alice" Demo.w0))))
  = Some [Some "2023-11-14 22:13:21"; Some "2023-11-14 22:13:23"].
Proof. vm_compute. reflexivity. Qed.

(** * Further properties of the orchestrator *)

(** ** Entry points at their edges *)

(** X1: when [search_ai_repos] raises, [scan_ai_projects] raises the same
    exception after the clock reading and the search call; no repository is
    scanned and no report is generated. *)
Theorem ai_search_failure_propagates
        (clock : nat -> datetime) (strftime : datetime -> string)
        (self : CloudScanner) (max_repos : Z) (e : exn) (w : World) :
  search_ai_repos (github_scanner self) max_repos = Raise e ->
  scan_ai_projects clock strftime self max_repos w
  = (Raise e, {| ticks := S (ticks w);
                 trace := CallSearchAiRepos max_repos :: CallNow :: trace w |}).
Proof.
  intros H. apply (scan_target_raise clock strftime self (AiProjects max_repos) e w H).
Qed.

Lemma ai_search_failure_propagates_witness :
  search_ai_repos Offline.github default_max_repos = Raise Offline.refused
  /\ scan_ai_projects Demo.clock Demo.strftime Offline.scanner default_max_repos Demo.w0
     = (Raise Offline.refused,
        {| ticks := 1; trace := [CallSearchAiRepos default_max_repos; CallNow] |}).
Proof.
  split; [reflexivity|].
  exact (ai_search_failure_propagates Demo.clock Demo.strftime Offline.scanner
           default_max_repos Offline.refused Demo.w0 eq_refl).
Defined.

(** X2: a target that resolves to no repository is not an error: the scan
    makes no repository call, generates a report of the empty list with
    count 0, and returns its location. *)
Theorem empty_target_still_reports
        (clock : nat -> datetime) (strftime : datetime -> string)
        (self : CloudScanner) (t : Target) (w : World) :
  resolve self t = Ok [] ->
  let report_path :=
    generate_report (report_generator self) [] (clock (ticks w)) (scan_type_of t) in
  scan_target clock strftime self t w
  = (Ok report_path,
     {| ticks := S (ticks w);
        trace := CallGenerateSummary report_path 0
                   :: CallGenerateReport [] (clock (ticks w)) (scan_type_of t)
                   :: listing_call t :: CallNow :: trace w |}).
Proof.
  intros H report_path.
  rewrite (scan_target_ok clock strftime self t [] w H). reflexivity.
Qed.

Lemma empty_target_still_reports_witness :
  resolve Demo.scanner (AiProjects 0) = Ok []
  /\ scan_ai_projects Demo.clock Demo.strftime Demo.scanner 0 Demo.w0
     = (Ok "reports/auto:ai-projects.md",
        {| ticks := 1;
           trace := [CallGenerateSummary "reports/auto:ai-projects.md" 0;
                     CallGenerateReport [] 1700000000%Z "auto:ai-projects";
                     CallSearchAiRepos 0; CallNow] |}).
Proof.
  split; [reflexivity|].
  exact (empty_target_still_reports Demo.clock Demo.strftime Demo.scanner
           (AiProjects 0) Demo.w0 eq_refl).
Defined.

(** X3: [scan_single_repo] does not check that the repository exists: when
    the file listing of the named repository raises, the scan still returns
    a report location, for a report of the empty list with count 0. *)
Theorem single_repo_listing_failure
        (clock : nat -> datetime) (strftime : datetime -> string)
        (self : CloudScanner) (R : string) (e : exn) (w : World) :
  get_repo_files (github_scanner self) R = Raise e ->
  let start := clock (ticks w) in
  let report_path :=
    generate_report (report_generator self) [] start ("single:" ++ R)%string in
  scan_single_repo clock strftime self R w
  = (Ok report_path,
     {| ticks := S (S (ticks w));
        trace := CallGenerateSummary report_path 0
                   :: CallGenerateReport [] start ("single:" ++ R)%string
                   :: CallGetRepoFiles R :: CallNow :: CallNow :: trace w |}).
Proof.
  intros H start report_path.
  unfold scan_single_repo. rewrite bind_run. cbn [now].
  rewrite bind_run, scan_repository_run, report_run.
  rewrite (listing_failure_pass self
             (mkRepo R ("https://github.com/" ++ R) ("https://github.com/" ++ R ++ ".git"))
             _ e H).
  reflexivity.
Qed.

Lemma single_repo_listing_failure_witness :
  get_repo_files Demo.github "nobody/nothing" = Raise Demo.not_found
  /\ fst (scan_single_repo Demo.clock Demo.strftime Demo.scanner "nobody/nothing" Demo.w0)
     = Ok "reports/single:nobody/nothing.md".
Proof.
  split; [reflexivity|].
  rewrite (single_repo_listing_failure Demo.clock Demo.strftime Demo.scanner
             "nobody/nothing" Demo.not_found Demo.w0 eq_refl).
  reflexivity.
Defined.

(** ** What a repository scan does and does not call *)

Lemma file_loop_calls_kind (self : CloudScanner) (name : string) (files : list FileInfo) :
  Forall (fun c => is_file_call c = true) (snd (files_run self name files)).
Proof.
  apply Forall_forall. intros c Hc.
  apply files_run_calls in Hc as (f & _ & Hc).
  pose proof (file_calls_kind self name f) as K.
  rewrite Forall_forall in K. now apply K.
Qed.

Lemma file_calls_origin (self : CloudScanner) (name : string) (f : FileInfo) (c : Call) :
  In c (file_calls self name f) ->
  c = CallShouldScanFile (path f)
  \/ c = CallGetFileContent name (path f)
  \/ exists content, c = CallDetect content (path f).
Proof.
  unfold file_calls.
  destruct (should_scan_file (secret_detector self) (path f)); cbn.
  - destruct (get_file_content (github_scanner self) name (path f)) as [content|e];
      [destruct (truthy content)|]; cbn; intros H;
      repeat (destruct H as [<-|H]; [eauto|]); contradiction.
  - intros [<-|[]]. now left.
Qed.

(** X4: a repository scan that meets an exception (in the file listing, a
    content fetch or a detection) calls neither the deduplication nor the
    confidence filter. *)
Theorem failed_scan_skips_selection
        (clock : nat -> datetime) (strftime : datetime -> string)
        (self : CloudScanner) (repo : Repo) (e : exn) (w : World) :
  repo_failure self (full_name repo) = Some e ->
  exists findings calls,
    _scan_repository clock strftime self repo w = (Ok findings, extend calls (tick w))
    /\ Forall (fun c => is_selection_call c = false) calls.
Proof.
  intros H. do 2 eexists. split; [apply scan_repository_run|].
  unfold repo_failure in H. unfold repo_pass.
  destruct (get_repo_files (github_scanner self) (full_name repo)) as [files|e'];
    [|repeat constructor].
  pose proof (file_loop_calls_kind self (full_name repo) files) as K.
  destruct (files_run self (full_name repo) files) as [[collected failure] calls].
  cbn [fst snd] in *. subst failure. cbn [snd].
  apply Forall_app. split; [|repeat constructor].
  eapply Forall_impl; [|exact K].
  intros c Hc. destruct c; try discriminate; reflexivity.
Qed.

Lemma failed_scan_skips_selection_witness :
  repo_failure Demo.scanner (full_name Demo.leaky) = Some Demo.timed_out
  /\ exists findings calls,
       _scan_repository Demo.clock Demo.strftime Demo.scanner Demo.leaky Demo.w0
       = (Ok findings, extend calls (tick Demo.w0))
       /\ Forall (fun c => is_selection_call c = false) calls.
Proof.
  split; [reflexivity|].
  exact (failed_scan_skips_selection Demo.clock Demo.strftime Demo.scanner Demo.leaky
           Demo.timed_out Demo.w0 eq_refl).
Defined.

(** X5: when fetch or detection raises at a file of the listing and the
    files before it do not raise, [_scan_repository] returns the enriched
    detector output of the files before it, in listing order, as collected:
    the list has been neither deduplicated nor filtered. *)
Theorem file_failure_returns_collected
        (clock : nat -> datetime) (strftime : datetime -> string)
        (self : CloudScanner) (repo : Repo)
        (pre post : list FileInfo) (fk : FileInfo) (e : exn) (w : World) :
  get_repo_files (github_scanner self) (full_name repo) = Ok (pre ++ fk :: post) ->
  Forall (file_ok self (full_name repo)) pre ->
  file_answer self (full_name repo) fk = Raise e ->
  fst (_scan_repository clock strftime self repo w)
  = Ok (raw_findings self repo (strftime (clock (ticks w))) pre).
Proof.
  intros Hfiles Hpre Hk. rewrite scan_repository_run. cbn [fst].
  unfold repo_pass.
  rewrite Hfiles, (files_run_stops self (full_name repo) pre post fk e Hpre Hk).
  cbn [fst]. f_equal.
  apply (files_run_collected self (full_name repo) repo _ pre eq_refl Hpre).
Qed.

Lemma file_failure_returns_collected_witness :
  get_repo_files Demo.github "bob/leaky"
  = Ok ([mkFile "a.env" 64] ++ mkFile "b.env" 64 :: [mkFile "c.env" 64])
  /\ file_answer Demo.scanner "bob/leaky" (mkFile "b.env" 64) = Raise Demo.timed_out
  /\ fst (_scan_repository Demo.clock Demo.strftime Demo.scanner Demo.leaky Demo.w0)
     = Ok (map (enrich Demo.leaky "2023-11-14 22:13:20")
               [Demo.weak "a.env" 2; Demo.aws "a.env" 4; Demo.aws "a.env" 9]).
Proof.
  split; [reflexivity|]. split; [reflexivity|].
  assert (Hpre : Forall (file_ok Demo.scanner (full_name Demo.leaky)) [mkFile "a.env" 64]).
  { constructor; [|constructor]. eexists. vm_compute. reflexivity. }
  rewrite (file_failure_returns_collected Demo.clock Demo.strftime Demo.scanner
             Demo.leaky [mkFile "a.env" 64] [mkFile "c.env" 64] (mkFile "b.env" 64)
             Demo.timed_out Demo.w0 eq_refl Hpre eq_refl).
  reflexivity.
Defined.

Lemma contentless_answer (self : CloudScanner) (name : string) (f : FileInfo) :
  contentless self name f ->
  file_answer self name f = Ok []
  /\ Forall (fun c => is_detect_call c = false) (file_calls self name f).
Proof.
  unfold file_answer, file_calls. intros [H|(content & Hc & Ht)].
  - rewrite H. cbn. split; [reflexivity|repeat constructor].
  - rewrite Hc, Ht.
    destruct (should_scan_file (secret_detector self) (path f)); cbn;
      (split; [reflexivity|repeat constructor]).
Qed.

Lemma contentless_files (self : CloudScanner) (repo : Repo) (st : string)
      (files : list FileInfo) :
  Forall (contentless self (full_name repo)) files ->
  Forall (file_ok self (full_name repo)) files
  /\ raw_findings self repo st files = []
  /\ Forall (fun c => is_detect_call c = false)
            (snd (files_run self (full_name repo) files)).
Proof.
  induction 1 as [|f rest Hf _ (IHok & IHraw & IHcalls)].
  - repeat split; constructor.
  - apply contentless_answer in Hf as [Hanswer Hcalls].
    split; [|split].
    + constructor; [now exists []|assumption].
    + unfold raw_findings in *. cbn [flat_map]. rewrite Hanswer. exact IHraw.
    + cbn [files_run]. rewrite Hanswer.
      destruct (files_run self (full_name repo) rest) as [[more failure] calls].
      cbn [snd] in *. apply Forall_app. now split.
Qed.

(** X6: a repository with nothing to read (its listing is empty, or every
    file is rejected by the file filter or fetched as [None] or empty) makes
    no detector call; the deduplication is still called, on the empty list,
    the filter on its output, and the scan returns what the filter
    returns. *)
Theorem contentless_repository
        (clock : nat -> datetime) (strftime : datetime -> string)
        (self : CloudScanner) (repo : Repo) (files : list FileInfo) (w : World) :
  get_repo_files (github_scanner self) (full_name repo) = Ok files ->
  Forall (contentless self (full_name repo)) files ->
  let d := secret_detector self in
  exists calls,
    _scan_repository clock strftime self repo w
    = (Ok (filter_high_confidence d (deduplicate_findings d [])),
       extend (CallFilter (deduplicate_findings d []) :: CallDeduplicate [] :: calls)
              (tick w))
    /\ Forall (fun c => is_detect_call c = false) calls.
Proof.
  intros Hfiles Hall d.
  destruct (contentless_files self repo (strftime (clock (ticks w))) files Hall)
    as (Hok & Hraw & Hcalls).
  eexists. split.
  - rewrite scan_repository_run.
    rewrite (clean_pass_is_filtered self repo _ files Hfiles Hok), Hraw. reflexivity.
  - apply Forall_app. split; [exact Hcalls|repeat constructor].
Qed.

Lemma contentless_repository_witness :
  get_repo_files Quiet.github "carol/docs" = Ok Quiet.listing
  /\ Forall (contentless Quiet.scanner "carol/docs") Quiet.listing
  /\ exists calls,
       _scan_repository Demo.clock Demo.strftime Quiet.scanner Quiet.docs Demo.w0
       = (Ok [], extend (CallFilter [] :: CallDeduplicate [] :: calls) (tick Demo.w0))
       /\ Forall (fun c => is_detect_call c = false) calls.
Proof.
  assert (Hall : Forall (contentless Quiet.scanner (full_name Quiet.docs)) Quiet.listing).
  { constructor; [now left|].
    constructor; [right; exists (Some ""); now split|].
    constructor; [right; exists None; now split|constructor]. }
  split; [reflexivity|]. split; [exact Hall|].
  exact (contentless_repository Demo.clock Demo.strftime Quiet.scanner Quiet.docs
           Quiet.listing Demo.w0 eq_refl Hall).
Defined.

(** X7: every call a repository scan makes after its clock reading concerns
    that repository: the only file listing is of its full name, and every
    filter check, content fetch and detection is for the path of an entry of
    that listing, the fetch under the repository's full name. *)
Theorem calls_stay_in_repository
        (clock : nat -> datetime) (strftime : datetime -> string)
        (self : CloudScanner) (repo : Repo) (w : World) :
  exists findings calls,
    _scan_repository clock strftime self repo w = (Ok findings, extend calls (tick w))
    /\ (forall n, In (CallGetRepoFiles n) calls -> n = full_name repo)
    /\ (forall c,
          In c calls -> is_file_call c = true ->
          exists files f,
            get_repo_files (github_scanner self) (full_name repo) = Ok files
            /\ In f files
            /\ (c = CallShouldScanFile (path f)
                \/ c = CallGetFileContent (full_name repo) (path f)
                \/ exists content, c = CallDetect content (path f))).
Proof.
  do 2 eexists. split; [apply scan_repository_run|]. split.
  - intros n Hin.
    apply repo_pass_calls in Hin
      as [Hin|[(files & f & _ & _ & Hin)|[[l Hin]|[l Hin]]]]; try discriminate.
    + now inversion Hin.
    + apply file_calls_origin in Hin as [Hin|[Hin|[content Hin]]]; discriminate.
  - intros c Hin Hkind.
    apply repo_pass_calls in Hin
      as [->|[(files & f & Hfiles & Hf & Hin)|[[l ->]|[l ->]]]]; try discriminate.
    exists files, f. split; [assumption|]. split; [assumption|].
    exact (file_calls_origin self (full_name repo) f c Hin).
Qed.

(** ** Where the returned findings come from *)

Lemma answer_origin (self : CloudScanner) (name : string) (f : FileInfo)
      (secrets : list Finding) (s : Finding) :
  file_answer self name f = Ok secrets ->
  In s secrets ->
  should_scan_file (secret_detector self) (path f) = true
  /\ exists content,
       get_file_content (github_scanner self) name (path f) = Ok (Some content)
       /\ content <> ""
       /\ detect_secrets_in_text (secret_detector self) content (path f) = Ok secrets.
Proof.
  unfold file_answer.
  destruct (should_scan_file (secret_detector self) (path f)); cbn.
  - destruct (get_file_content (github_scanner self) name (path f)) as [content|e];
      [|discriminate].
    destruct (truthy content) eqn:T.
    + intros H Hin. apply truthy_text in T as [T1 T2].
      split; [reflexivity|]. exists (text_of content).
      rewrite <- T1. auto.
    + intros H Hin. inversion H; subst. contradiction.
  - intros H Hin. inversion H; subst. contradiction.
Qed.

Lemma collected_origin (self : CloudScanner) (name : string) (files : list FileInfo)
      (s : Finding) :
  In s (fst (fst (files_run self name files))) ->
  exists f secrets,
    In f files /\ file_answer self name f = Ok secrets /\ In s secrets.
Proof.
  induction files as [|f rest IH]; cbn [files_run]; [intros []|].
  destruct (file_answer self name f) as [secrets|e] eqn:Hf; [|intros []].
  destruct (files_run self name rest) as [[more failure] calls]. cbn [fst] in *.
  intros H. apply in_app_or in H as [H|H].
  - exists f, secrets. split; [now left|now split].
  - destruct (IH H) as (g & gs & Hg & Hans & Hin).
    exists g, gs. split; [now right|now split].
Qed.

(** X8: with a deduplication and a filter that only select among their
    input, [_scan_repository] invents nothing: every finding it returns,
    raise or not, is the enrichment of a secret that the detector reported
    for a non-empty text fetched for a file of the listing that passed the
    file filter. *)
Theorem findings_come_from_detector
        (clock : nat -> datetime) (strftime : datetime -> string)
        (self : CloudScanner) (repo : Repo) (w : World) :
  selects (deduplicate_findings (secret_detector self)) ->
  selects (filter_high_confidence (secret_detector self)) ->
  exists findings w',
    _scan_repository clock strftime self repo w = (Ok findings, w')
    /\ forall x,
         In x findings ->
         exists files f content secrets secret,
           get_repo_files (github_scanner self) (full_name repo) = Ok files
           /\ In f files
           /\ should_scan_file (secret_detector self) (path f) = true
           /\ get_file_content (github_scanner self) (full_name repo) (path f)
              = Ok (Some content)
           /\ content <> ""
           /\ detect_secrets_in_text (secret_detector self) content (path f) = Ok secrets
           /\ In secret secrets
           /\ x = enrich repo (strftime (clock (ticks w))) secret.
Proof.
  intros Hd Hf. do 2 eexists. split; [apply scan_repository_run|].
  intros x Hx. unfold repo_pass in Hx.
  destruct (get_repo_files (github_scanner self) (full_name repo)) as [files|e];
    [|contradiction].
  pose proof (collected_origin self (full_name repo) files) as Horigin.
  destruct (files_run self (full_name repo) files) as [[collected failure] calls].
  cbn [fst] in Horigin.
  assert (Hraw : In x (map (enrich repo (strftime (clock (ticks w)))) collected)).
  { destruct failure as [e|]; cbn [fst] in Hx; [exact Hx|]. now apply Hd, Hf. }
  apply in_map_iff in Hraw as (secret & <- & Hsecret).
  destruct (Horigin secret Hsecret) as (f & secrets & Hin & Hans & Hs).
  destruct (answer_origin self (full_name repo) f secrets secret Hans Hs)
    as (Hwanted & content & Hfetch & Hne & Hdetect).
  exists files, f, content, secrets, secret. repeat split; assumption.
Qed.

Lemma findings_come_from_detector_witness :
  selects (deduplicate_findings (secret_detector Demo.scanner))
  /\ selects (filter_high_confidence (secret_detector Demo.scanner))
  /\ exists findings w',
       _scan_repository Demo.clock Demo.strftime Demo.scanner Demo.leaky Demo.w0
       = (Ok findings, w').
Proof.
  split; [exact deduplicate_spec_selects|].
  split; [exact (filter_spec_selects Demo.threshold)|].
  destruct (findings_come_from_detector Demo.clock Demo.strftime Demo.scanner Demo.leaky
              Demo.w0 deduplicate_spec_selects (filter_spec_selects Demo.threshold))
    as (findings & w' & Hrun & _).
  now exists findings, w'.
Defined.

(** ** How many calls a repository scan makes *)

Lemma count_calls_app (p : Call -> bool) (a b : list Call) :
  count_calls p (a ++ b) = count_calls p a + count_calls p b.
Proof.
  unfold count_calls. now rewrite filter_app, length_app.
Qed.

Lemma count_calls_none (p : Call -> bool) (l : list Call) :
  Forall (fun c => p c = false) l -> count_calls p l = 0.
Proof.
  unfold count_calls. induction 1 as [|c rest Hc _ IH]; cbn; [reflexivity|].
  now rewrite Hc.
Qed.

Lemma file_calls_count (self : CloudScanner) (name : string) (f : FileInfo) :
  count_calls is_check_call (file_calls self name f) = 1
  /\ count_calls is_fetch_call (file_calls self name f)
     = (if should_scan_file (secret_detector self) (path f) then 1 else 0)
  /\ count_calls is_detect_call (file_calls self name f)
     <= count_calls is_fetch_call (file_calls self name f)
  /\ count_calls is_file_listing (file_calls self name f) = 0.
Proof.
  unfold file_calls.
  destruct (should_scan_file (secret_detector self) (path f)); cbn;
    [|repeat split; lia].
  destruct (get_file_content (github_scanner self) name (path f)) as [content|e];
    [destruct (truthy content)|]; cbn; repeat split; lia.
Qed.

Lemma files_run_count (self : CloudScanner) (name : string) (files : list FileInfo) :
  let calls := snd (files_run self name files) in
  count_calls is_check_call calls <= length files
  /\ count_calls is_fetch_call calls <= length (wanted_files self files)
  /\ count_calls is_detect_call calls <= count_calls is_fetch_call calls
  /\ count_calls is_file_listing calls = 0
  /\ (Forall (file_ok self name) files ->
      count_calls is_check_call calls = length files
      /\ count_calls is_fetch_call calls = length (wanted_files self files)).
Proof.
  induction files as [|f rest IH]; cbn [files_run].
  - cbn. repeat split; lia.
  - destruct (file_calls_count self name f) as (Hc & Hf & Hd & Hl).
    cbn zeta in IH. unfold wanted_files in *. cbn [filter length].
    destruct (file_answer self name f) as [secrets|e] eqn:Hans.
    + destruct (files_run self name rest) as [[more failure] calls].
      cbn [snd] in *. cbn zeta. rewrite !count_calls_app.
      destruct IH as (IHc & IHf & IHd & IHl & IHclean).
      destruct (should_scan_file (secret_detector self) (path f)); cbn [length];
        (repeat split; try lia);
        match goal with
        | Hok : Forall _ (_ :: _) |- _ =>
            inversion Hok as [|? ? _ Hrest]; subst; destruct (IHclean Hrest); lia
        end.
    + cbn [snd]. cbn zeta.
      destruct (should_scan_file (secret_detector self) (path f)); cbn [length];
        (repeat split; try lia);
        match goal with
        | Hok : Forall _ (_ :: _) |- _ =>
            inversion Hok as [|? ? [secrets Hs] _]; subst; congruence
        end.
Qed.

Lemma pass_calls_shape (self : CloudScanner) (repo : Repo) (st : string)
      (files : list FileInfo) :
  get_repo_files (github_scanner self) (full_name repo) = Ok files ->
  exists selection,
    snd (repo_pass self repo st)
    = selection ++ snd (files_run self (full_name repo) files)
      ++ [CallGetRepoFiles (full_name repo)]
    /\ Forall (fun c => is_selection_call c = true) selection.
Proof.
  intros H. unfold repo_pass. rewrite H.
  destruct (files_run self (full_name repo) files) as [[collected [e|]] calls];
    cbn [snd].
  - exists []. split; [reflexivity|constructor].
  - eexists [_; _]. split; [reflexivity|repeat constructor].
Qed.

(** X9: a repository scan lists the files once, checks at most every entry
    of the listing with the file filter, fetches at most the entries that
    pass it, and calls the detector at most once per fetch; when nothing
    raises it checks every entry and fetches exactly those that pass, so
    duplicate entries of a listing are fetched again. *)
Theorem scan_call_budget
        (clock : nat -> datetime) (strftime : datetime -> string)
        (self : CloudScanner) (repo : Repo) (files : list FileInfo) (w : World) :
  get_repo_files (github_scanner self) (full_name repo) = Ok files ->
  exists findings calls,
    _scan_repository clock strftime self repo w = (Ok findings, extend calls (tick w))
    /\ count_calls is_file_listing calls = 1
    /\ count_calls is_check_call calls <= length files
    /\ count_calls is_fetch_call calls <= length (wanted_files self files)
    /\ count_calls is_detect_call calls <= count_calls is_fetch_call calls
    /\ (Forall (file_ok self (full_name repo)) files ->
        count_calls is_check_call calls = length files
        /\ count_calls is_fetch_call calls = length (wanted_files self files)).
Proof.
  intros H. do 2 eexists. split; [apply scan_repository_run|].
  destruct (pass_calls_shape self repo (strftime (clock (ticks w))) files H)
    as (selection & -> & Hsel).
  destruct (files_run_count self (full_name repo) files) as (Hc & Hf & Hd & Hl & Hclean).
  cbn zeta in *.
  assert (Z1 : count_calls is_file_listing selection = 0
               /\ count_calls is_check_call selection = 0
               /\ count_calls is_fetch_call selection = 0
               /\ count_calls is_detect_call selection = 0).
  { repeat split; apply count_calls_none; (eapply Forall_impl; [|exact Hsel]);
      intros c Hk; destruct c; try discriminate; reflexivity. }
  destruct Z1 as (Z1 & Z2 & Z3 & Z4).
  rewrite !count_calls_app, Z1, Z2, Z3, Z4. cbn.
  repeat split; try lia;
    match goal with
    | Hok : Forall _ files |- _ => destruct (Hclean Hok); lia
    end.
Qed.

Lemma scan_call_budget_witness :
  get_repo_files Demo.github "alice/one"
  = Ok [mkFile "config.py" 120; mkFile "node_modules/x.js" 9000;
        mkFile "README" 0; mkFile "LICENSE" 1000]
  /\ exists findings calls,
       _scan_repository Demo.clock Demo.strftime Demo.scanner Demo.one Demo.w0
       = (Ok findings, extend calls (tick Demo.w0))
       /\ count_calls is_file_listing calls = 1
       /\ count_calls is_check_call calls <= 4
       /\ count_calls is_fetch_call calls <= 3.
Proof.
  split; [reflexivity|].
  destruct (scan_call_budget Demo.clock Demo.strftime Demo.scanner Demo.one
              [mkFile "config.py" 120; mkFile "node_modules/x.js" 9000;
               mkFile "README" 0; mkFile "LICENSE" 1000] Demo.w0 eq_refl)
    as (findings & calls & Hrun & H1 & H2 & H3 & _).
  exists findings, calls. repeat split; assumption.
Defined.

(** ** The order of a multi-repository scan *)

Lemma filter_none (p : Call -> bool) (l : list Call) :
  Forall (fun c => p c = false) l -> filter p l = [].
Proof.
  induction 1 as [|c rest Hc _ IH]; cbn; [reflexivity|]. now rewrite Hc.
Qed.

Lemma pass_lists_once (self : CloudScanner) (repo : Repo) (st : string) :
  filter is_file_listing (snd (repo_pass self repo st))
  = [CallGetRepoFiles (full_name repo)].
Proof.
  destruct (get_repo_files (github_scanner self) (full_name repo)) as [files|e] eqn:H.
  - destruct (pass_calls_shape self repo st files H) as (selection & -> & Hsel).
    rewrite !filter_app.
    rewrite (filter_none is_file_listing selection).
    + rewrite (filter_none is_file_listing (snd (files_run self (full_name repo) files)));
        [reflexivity|].
      eapply Forall_impl; [|apply file_loop_calls_kind].
      intros c Hk. destruct c; try discriminate; reflexivity.
    + eapply Forall_impl; [|exact Hsel].
      intros c Hk. destruct c; try discriminate; reflexivity.
  - now rewrite (listing_failure_pass self repo st e H).
Qed.

Section Order.

Variable clock : nat -> datetime.
Variable strftime : datetime -> string.
Variable self : CloudScanner.

Lemma world_after_shape (repos : list Repo) (w : World) :
  exists calls,
    trace (world_after clock strftime self repos w) = calls ++ trace w
    /\ rev (filter is_file_listing calls)
       = map (fun repo => CallGetRepoFiles (full_name repo)) repos
    /\ ticks (world_after clock strftime self repos w) = ticks w + length repos.
Proof.
  revert w. induction repos as [|repo rest IH]; intros w.
  - exists []. cbn. repeat split. lia.
  - rewrite world_after_cons.
    destruct (IH (extend (snd (repo_pass self repo (strftime (clock (ticks w))))) (tick w)))
      as (calls & Htrace & Horder & Hticks).
    exists (calls ++ snd (repo_pass self repo (strftime (clock (ticks w)))) ++ [CallNow]).
    split; [|split].
    + rewrite Htrace. cbn. now rewrite <- !app_assoc.
    + rewrite !filter_app, pass_lists_once. cbn [filter is_file_listing app].
      rewrite rev_app_distr. cbn [rev app map]. now rewrite Horder.
    + rewrite Hticks. cbn. lia.
Qed.

Lemma contributions_nth (repos : list Repo) (w wi : World) (i : nat) (repo : Repo) :
  nth_error repos i = Some repo ->
  ticks wi = ticks w + i ->
  nth_error (contributions clock strftime self repos w) i
  = Some (fst (repo_pass self repo (strftime (clock (ticks wi))))).
Proof.
  revert w i. induction repos as [|r rest IH]; intros w i Hnth Hticks.
  - destruct i; discriminate.
  - rewrite contributions_cons. destruct i as [|j]; cbn [nth_error] in *.
    + inversion Hnth; subst. now rewrite Hticks, Nat.add_0_r.
    + apply IH; [assumption|]. cbn. lia.
Qed.

End Order.

(** X10: a multi-repository scan lists the files of every repository of the
    target exactly once, in the order of the repository listing. *)
Theorem repositories_listed_in_order
        (clock : nat -> datetime) (strftime : datetime -> string)
        (self : CloudScanner) (t : Target) (repos : list Repo) (w : World) :
  resolve self t = Ok repos ->
  exists report_path w' calls,
    scan_target clock strftime self t w = (Ok report_path, w')
    /\ trace w' = calls ++ trace w
    /\ rev (filter is_file_listing calls)
       = map (fun repo => CallGetRepoFiles (full_name repo)) repos.
Proof.
  intros H.
  destruct (world_after_shape clock strftime self repos (log (listing_call t) (tick w)))
    as (calls & Htrace & Horder & _).
  pose (all := concat (contributions clock strftime self repos
                                     (log (listing_call t) (tick w)))).
  pose (location := generate_report (report_generator self) all
                                    (clock (ticks w)) (scan_type_of t)).
  do 2 eexists.
  exists (CallGenerateSummary location (length all)
            :: CallGenerateReport all (clock (ticks w)) (scan_type_of t)
            :: calls ++ [listing_call t; CallNow]).
  split; [apply (scan_target_ok clock strftime self t repos w H)|].
  split.
  - cbn [trace log]. rewrite Htrace. cbn. now rewrite <- app_assoc.
  - cbn [filter is_file_listing]. rewrite filter_app.
    replace (filter is_file_listing [listing_call t; CallNow]) with (@nil Call)
      by (destruct t; reflexivity).
    now rewrite app_nil_r.
Qed.

Lemma repositories_listed_in_order_witness :
  resolve Demo.scanner (User "alice") = Ok [Demo.one; Demo.two; Demo.three]
  /\ exists report_path w' calls,
       scan_target Demo.clock Demo.strftime Demo.scanner (User "alice") Demo.w0
       = (Ok report_path, w')
       /\ trace w' = calls ++ trace Demo.w0
       /\ rev (filter is_file_listing calls)
          = [CallGetRepoFiles "alice/one"; CallGetRepoFiles "alice/two";
             CallGetRepoFiles "alice/three"].
Proof.
  split; [reflexivity|].
  exact (repositories_listed_in_order Demo.clock Demo.strftime Demo.scanner
           (User "alice") [Demo.one; Demo.two; Demo.three] Demo.w0 eq_refl).
Defined.

(** X11: a multi-repository scan over [n] repositories reads the clock
    [1 + n] times: once for the start time, before the repository listing,
    and once at the start of each repository scan, failed or not.  The list
    the repository at index [i] contributes is what [_scan_repository]
    returns for it at reading number [1 + i] after the start of the scan. *)
Theorem clock_readings
        (clock : nat -> datetime) (strftime : datetime -> string)
        (self : CloudScanner) (t : Target) (repos : list Repo) (w : World) :
  resolve self t = Ok repos ->
  ticks (snd (scan_target clock strftime self t w)) = ticks w + 1 + length repos
  /\ forall i repo wi,
       nth_error repos i = Some repo ->
       ticks wi = ticks w + 1 + i ->
       exists findings,
         nth_error (contributions clock strftime self repos
                                  (log (listing_call t) (tick w))) i
         = Some findings
         /\ fst (_scan_repository clock strftime self repo wi) = Ok findings.
Proof.
  intros H. split.
  - rewrite (scan_target_ok clock strftime self t repos w H). cbn [snd log ticks].
    destruct (world_after_shape clock strftime self repos (log (listing_call t) (tick w)))
      as (calls & _ & _ & Hticks).
    rewrite Hticks. cbn. lia.
  - intros i repo wi Hnth Hticks. eexists. split.
    + apply (contributions_nth clock strftime self repos _ wi i repo Hnth).
      cbn. lia.
    + now rewrite scan_repository_run.
Qed.

Lemma clock_readings_witness :
  resolve Demo.scanner (User "alice") = Ok [Demo.one; Demo.two; Demo.three]
  /\ ticks (snd (scan_target Demo.clock Demo.strftime Demo.scanner (User "alice") Demo.w0))
     = 4.
Proof.
  split; [reflexivity|].
  exact (proj1 (clock_readings Demo.clock Demo.strftime Demo.scanner (User "alice")
                  [Demo.one; Demo.two; Demo.three] Demo.w0 eq_refl)).
Defined.

(** X12: a multi-repository scan whose repository listing succeeds calls
    the repository listing once, as its second call after the clock, then
    scans; it calls [generate_report] once and [generate_summary] once, as
    its last two calls, the summary with the returned location and the
    length of the reported list; the returned location is the one
    [generate_report] gave. *)
Theorem one_report_per_scan
        (clock : nat -> datetime) (strftime : datetime -> string)
        (self : CloudScanner) (t : Target) (repos : list Repo) (w : World) :
  resolve self t = Ok repos ->
  let start := clock (ticks w) in
  exists findings inner w',
    scan_target clock strftime self t w
    = (Ok (generate_report (report_generator self) findings start (scan_type_of t)), w')
    /\ trace w'
       = CallGenerateSummary
           (generate_report (report_generator self) findings start (scan_type_of t))
           (length findings)
           :: CallGenerateReport findings start (scan_type_of t)
           :: inner ++ listing_call t :: CallNow :: trace w
    /\ Forall (fun c => is_repo_listing c = false /\ is_report_call c = false) inner.
Proof.
  intros H start.
  destruct (world_after_calls clock strftime self repos (log (listing_call t) (tick w)))
    as (inner & Htrace & _ & Hplain & _).
  do 3 eexists.
  split; [apply (scan_target_ok clock strftime self t repos w H)|].
  split; [|exact Hplain].
  cbn [trace log]. now rewrite Htrace.
Qed.

Lemma one_report_per_scan_witness :
  resolve Demo.scanner (Organization "acme") = Ok [Demo.app; Demo.three]
  /\ fst (scan_target Demo.clock Demo.strftime Demo.scanner (Organization "acme") Demo.w0)
     = Ok "reports/org:acme.md".
Proof.
  split; [reflexivity|].
  destruct (one_report_per_scan Demo.clock Demo.strftime Demo.scanner
              (Organization "acme") [Demo.app; Demo.three] Demo.w0 eq_refl)
    as (findings & inner & w' & Hrun & _).
  rewrite Hrun. reflexivity.
Defined.
